(** * powerdms-poweruser: the catalog scraper and its two artifacts

    A shallow embedding of [powerdms-poweruser.py]: the filename sanitizer
    [safe_filename] and the pipeline [scrape_powerdms_site] (resolve the
    site, fetch the catalog, write the CSV index and the download script).

    A Python [str] is a sequence of Unicode code points; it is modelled as
    a list of code points.  The network, [urlparse] and the formatting of
    non-string JSON values are inputs of the model (record [Env]).  A run
    is modelled by the [return] it takes and the files it leaves.

    The platform is a POSIX one, that of the [/bin/sh] script the run
    writes: [os.path.join] is that of [posixpath], a file name is encoded
    as [os.fsencode] does under a UTF-8 locale and may take [NAME_MAX]
    bytes.  A file is written as [encoding='utf-8'] says: a text with a
    lone surrogate raises [UnicodeEncodeError] at the write that holds it,
    and what was written before stays in the file.  The working directory
    is taken to be writable, with room left and no directory under the
    names the run uses; [print] is taken to succeed. *)

From Stdlib Require Import Ascii String.
From Stdlib Require Import List NArith ZArith Bool Lia.
Import ListNotations.

Open Scope N_scope.
Open Scope list_scope.

(** ** Python strings *)

Definition char := N.
Definition str := list char.

(** A source literal, as its sequence of code points. *)
Definition lit (s : string) : str :=
  List.map N_of_ascii (list_ascii_of_string s).

Definition nl : str := [10].          (* the line feed *)
Definition c_dquote : char := 34.
Definition dq : str := [c_dquote].    (* the double quote *)

Definition c_space : char := 32.
Definition c_underscore : char := 95.
Definition c_slash : char := 47.

Fixpoint str_eqb (a b : str) : bool :=
  match a, b with
  | [], [] => true
  | x :: a', y :: b' => (x =? y) && str_eqb a' b'
  | _, _ => false
  end.

(** [t.startswith(p)] *)
Fixpoint startswith (t p : str) {struct p} : bool :=
  match p, t with
  | [], _ => true
  | y :: p', x :: t' => (x =? y) && startswith t' p'
  | _ :: _, [] => false
  end.

(** [t.endswith(s)] *)
Definition endswith (t s : str) : bool :=
  startswith (rev t) (rev s).

(** [sub in t] for two strings: [sub] occurs in [t] as a substring. *)
Fixpoint contains (sub t : str) : bool :=
  startswith t sub ||
  match t with
  | [] => false
  | _ :: t' => contains sub t'
  end.

(** [Py_UNICODE_ISSPACE]: the code points that [\s] matches in a [str]
    pattern and that [str.strip()] removes. *)
Definition is_space (c : char) : bool :=
  ((9 <=? c) && (c <=? 13)) || ((28 <=? c) && (c <=? 32)) ||
  (c =? 133) || (c =? 160) || (c =? 5760) ||
  ((8192 <=? c) && (c <=? 8202)) || (c =? 8232) || (c =? 8233) ||
  (c =? 8239) || (c =? 8287) || (c =? 12288).

(** [t.strip()]: leading and trailing whitespace removed. *)
Fixpoint lstrip (t : str) : str :=
  match t with
  | [] => []
  | c :: t' => if is_space c then lstrip t' else t
  end.

Definition rstrip (t : str) : str := rev (lstrip (rev t)).

Definition strip (t : str) : str := rstrip (lstrip t).

(** [t.split('/')]: the segments between slashes; never the empty list. *)
Fixpoint split_slash (t : str) : list str :=
  match t with
  | [] => [[]]
  | c :: t' =>
      if c =? c_slash then [] :: split_slash t'
      else match split_slash t' with
           | [] => [[c]]
           | seg :: segs => (c :: seg) :: segs
           end
  end.

(** ** safe_filename *)

(** The character class of the first [re.sub]: the nine code points of
    less-than, greater-than, colon, double quote, slash, backslash,
    vertical bar, question mark and asterisk. *)
Definition is_reserved (c : char) : bool :=
  (c =? 60) || (c =? 62) || (c =? 58) || (c =? 34) || (c =? 47) ||
  (c =? 92) || (c =? 124) || (c =? 63) || (c =? 42).

(** The first [re.sub]: every reserved code point becomes a space. *)
Definition sub_reserved (text : str) : str :=
  List.map (fun c => if is_reserved c then c_space else c) text.

(** [re.sub(r'\s+', '_', text)]: every maximal run of whitespace becomes one
    underscore.  [in_run] records that the previous code point was
    whitespace, that is, that the current match of [\s+] is still open. *)
Fixpoint sub_spaces_from (in_run : bool) (text : str) : str :=
  match text with
  | [] => []
  | c :: text' =>
      if is_space c
      then if in_run then sub_spaces_from true text'
           else c_underscore :: sub_spaces_from true text'
      else c :: sub_spaces_from false text'
  end.

Definition sub_spaces (text : str) : str := sub_spaces_from false text.

(** [text[:-1]] *)
Definition drop_last (text : str) : str :=
  firstn (length text - 1)%nat text.

Definition safe_filename (text : str) : str :=
  let text := sub_reserved text in
  let text := strip (sub_spaces text) in
  let text := if endswith text (lit ".") then drop_last text else text in
  firstn 200%nat text.

(** ** Decoded JSON, exceptions and the outside world *)

#[local] Set Warnings "-register-all".

(** What [response.json()] returns.  A number keeps its lexeme: the code
    never computes with one. *)
Inductive jvalue : Type :=
| JNull
| JBool (b : bool)
| JNum (lexeme : str)
| JStr (s : str)
| JArr (items : list jvalue)
| JObj (fields : list (str * jvalue)).

(** The entry of a dict under [key], if any. *)
Fixpoint lookup (key : str) (fields : list (str * jvalue)) : option jvalue :=
  match fields with
  | [] => None
  | (k, v) :: rest => if str_eqb k key then Some v else lookup key rest
  end.

(** An exception raised by a library.  The [except] clauses of the source
    test class membership, in order; the three flags are those tests.  How
    the classes include one another is the library's business, so each
    flag is an input.  [response_status_code] is [e.response.status_code],
    when [e.response] is set. *)
Record lib_exn : Type := {
  isinstance_HTTPError : bool;
  isinstance_RequestException : bool;
  isinstance_JSONDecodeError : bool;
  response_status_code : option Z
}.

Inductive exn : Type :=
| AttributeError
| TypeError
| IndexError
| UnboundLocalError
| UnicodeEncodeError
| ValueError
| OSError
| Lib (e : lib_exn).

(** The result of [urlparse]: the two attributes the source reads. *)
Record ParseResult : Type := {
  netloc : str;
  path : str
}.

(** The [requests] response: the outcome of [raise_for_status()], the
    attribute [text] and the outcome of [json()]. *)
Record Response : Type := {
  raise_for_status : option lib_exn;
  text : str;
  json : lib_exn + jvalue
}.

(** The world outside the script.  [session_get] is the one GET of the
    session built in the source (browser User-Agent, timeout 45);
    [py_str] is Python's [str()] on a decoded value that is not a string,
    used where an f-string formats one. *)
Record Env : Type := {
  urlparse : str -> exn + ParseResult;
  session_get : str -> lib_exn + Response;
  py_str : jvalue -> str
}.

(** ** What a run leaves behind *)

(** A file's content: text written with [f.write], the rows handed to
    [csv.writer], or the value handed to [json.dump]. *)
Inductive content : Type :=
| Text (s : str)
| CsvRows (rows : list (list jvalue))
| JsonDump (data : jvalue).

Definition file : Type := (str * content)%type.

(** How [scrape_powerdms_site] ends: one constructor for each [return]
    of the source, named after the message printed before it, and one for
    an exception that no clause catches. *)
Inductive exit : Type :=
| NotValidPowerDMSUrl                 (* ! ERROR: This does not appear to be a valid public PowerDMS URL. *)
| CouldNotParseUrl (e : exn)          (* ! ERROR: Could not parse the provided URL. *)
| HttpError (status_code : Z) (json_api_url : str)  (* ! HTTP ERROR: ... for URL ... *)
| RequestError (e : lib_exn)          (* ! REQUEST ERROR: Could not connect to the server. *)
| FailedToDecodeJson                  (* ! ERROR: Failed to decode JSON. *)
| NoDataList                          (* ! ERROR: The JSON response does not contain a 'data' list. *)
| NoDocumentsFound                    (* ! No public documents were found at this endpoint. *)
| AllDone                             (* ALL DONE! *)
| Uncaught (e : exn).

Record outcome : Type := {
  status : exit;
  files : list file
}.

(** ** Opening and writing a file *)

(** The code points U+D800 to U+DFFF; alone in a [str], none of them has
    a UTF-8 encoding. *)
Definition is_surrogate (c : char) : bool := (55296 <=? c) && (c <=? 57343).

(** The text can be written to a file opened with [encoding='utf-8']. *)
Definition encodable (t : str) : bool :=
  forallb (fun c => negb (is_surrogate c)) t.

(** [f.write(chunk)], one call after the other: each chunk is encoded as
    it is written.  The text that reached the file, and the exception of
    the first chunk that could not be encoded, if there is one. *)
Fixpoint write_all (chunks : list str) : str * option exn :=
  match chunks with
  | [] => ([], None)
  | chunk :: rest =>
      if encodable chunk
      then let (written, err) := write_all rest in (chunk ++ written, err)
      else ([], Some UnicodeEncodeError)
  end.

(** [os.fsencode] under a UTF-8 locale: the surrogates U+DC80 to U+DCFF
    stand for one undecodable byte each ([surrogateescape]); any other
    surrogate cannot be encoded. *)
Definition is_escaped_byte (c : char) : bool := (56448 <=? c) && (c <=? 56575).

Definition fs_bytes (c : char) : N :=
  if c <? 128 then 1
  else if c <? 2048 then 2
  else if is_escaped_byte c then 1
  else if c <? 65536 then 3
  else 4.

Definition fs_length (filename : str) : N :=
  fold_right (fun c n => fs_bytes c + n) 0 filename.

(** The longest file name, in bytes, of the POSIX file systems. *)
Definition NAME_MAX : N := 255.

(** [open(filename, 'w', ...)] in the working directory: the exception it
    raises, if any.  The name is encoded ([UnicodeEncodeError]), checked
    for a null character ([ValueError]) and handed to the system, which
    refuses a name longer than [NAME_MAX] ([OSError], file name too
    long). *)
Definition open_w (filename : str) : option exn :=
  if existsb (fun c => is_surrogate c && negb (is_escaped_byte c)) filename
  then Some UnicodeEncodeError
  else if existsb (N.eqb 0) filename then Some ValueError
  else if NAME_MAX <? fs_length filename then Some OSError
  else None.

(** ** 1. Determine site name and API endpoint *)

Definition is_empty {A : Type} (l : list A) : bool :=
  match l with [] => true | _ :: _ => false end.

(** [[part for part in parsed_url.path.split('/') if part]] *)
Definition path_parts (p : str) : list str :=
  filter (fun part => negb (is_empty part)) (split_slash p).

Definition api_url (domain site_name : str) : str :=
  lit "https://" ++ domain ++ lit "/" ++ site_name ++ lit "/documents".

(** The first [try] block: the site name and the endpoint, or the exit
    taken. *)
Definition resolve_site (E : Env) (url : str) : exit + (str * str) :=
  match urlparse E url with
  | inl e => inl (CouldNotParseUrl e)
  | inr parsed_url =>
      let domain := netloc parsed_url in
      let parts := path_parts (path parsed_url) in
      if negb (endswith domain (lit "powerdms.com")) || is_empty parts
      then inl NotValidPowerDMSUrl
      else match nth_error parts 0 with
           | None => inl (CouldNotParseUrl IndexError)
           | Some site_name => inr (site_name, api_url domain site_name)
           end
  end.

(** ** 2. Fetch JSON data from the API *)

(** The three [except] clauses, tried in the order of the source.
    [response] is the local variable of that name, unbound when
    [session.get] itself raised.  In the third clause the file is opened
    before [response.text] is read and written. *)
Definition fetch_handler (json_api_url : str) (response : option Response)
                         (e : lib_exn) : outcome :=
  if isinstance_HTTPError e then
    match response_status_code e with
    | Some code => {| status := HttpError code json_api_url; files := [] |}
    | None => {| status := Uncaught AttributeError; files := [] |}
    end
  else if isinstance_RequestException e then
    {| status := RequestError e; files := [] |}
  else if isinstance_JSONDecodeError e then
    match response with
    | Some r =>
        match write_all [text r] with
        | (written, None) =>
            {| status := FailedToDecodeJson;
               files := [(lit "error_response.html", Text written)] |}
        | (written, Some x) =>
            {| status := Uncaught x;
               files := [(lit "error_response.html", Text written)] |}
        end
    | None =>
        {| status := Uncaught UnboundLocalError;
           files := [(lit "error_response.html", Text [])] |}
    end
  else {| status := Uncaught (Lib e); files := [] |}.

Definition fetch (E : Env) (json_api_url : str) : outcome + jvalue :=
  match session_get E json_api_url with
  | inl e => inl (fetch_handler json_api_url None e)
  | inr response =>
      match raise_for_status response with
      | Some e => inl (fetch_handler json_api_url (Some response) e)
      | None =>
          match json response with
          | inl e => inl (fetch_handler json_api_url (Some response) e)
          | inr data => inr data
          end
      end
  end.

(** ** 3. to 6. Parse the JSON and write the two artifacts *)

Definition sentinel_name : str := lit "no-name-found".
Definition sentinel_url : str := lit "no-url-found".

(** A step of a loop body either yields a value or raises. *)
Definition ret {A : Type} (a : A) : exn + A := inr a.
Definition raise {A : Type} (e : exn) : exn + A := inl e.

Definition bind {A B : Type} (m : exn + A) (k : A -> exn + B) : exn + B :=
  match m with
  | inl e => inl e
  | inr a => k a
  end.

Notation "x <- m ;; k" := (bind m (fun x => k))
  (at level 61, m at next level, right associativity).

(** [doc.get(key, default)]; only a dict has the method. *)
Definition doc_get (doc : jvalue) (key default : str) : exn + jvalue :=
  match doc with
  | JObj fields =>
      ret (match lookup key fields with
           | Some v => v
           | None => JStr default
           end)
  | _ => raise AttributeError
  end.

(** A value inside an f-string. *)
Definition fmt (E : Env) (v : jvalue) : str :=
  match v with
  | JStr s => s
  | _ => py_str E v
  end.

(** ['no-url-found' in public_url]: a substring test on a string, a
    membership test on a list, a key test on a dict, and a [TypeError] on
    the values that are not containers. *)
Definition no_url_found_in (public_url : jvalue) : exn + bool :=
  match public_url with
  | JStr s => ret (contains sentinel_url s)
  | JArr items =>
      ret (existsb (fun v => match v with
                             | JStr s => str_eqb s sentinel_url
                             | _ => false
                             end) items)
  | JObj fields => ret (existsb (fun kv => str_eqb (fst kv) sentinel_url) fields)
  | _ => raise TypeError
  end.

(** [os.path.join(a, b)] of [posixpath]; the script is a [/bin/sh] one. *)
Definition path_join (a b : str) : str :=
  if startswith b (lit "/") then b
  else if is_empty a || endswith a (lit "/") then a ++ b
  else a ++ lit "/" ++ b.

Definition download_dir (site_name : str) : str := lit "downloaded_" ++ site_name.
Definition csv_filename (site_name : str) : str := site_name ++ lit "_documents.csv".
Definition script_filename (site_name : str) : str :=
  lit "download_" ++ site_name ++ lit ".sh".

(** A row can be encoded when its strings can.  A field that is no
    string is written as its [str()], null as nothing; neither holds a
    lone surrogate, [repr] escapes those of the strings inside a list or
    a dict. *)
Definition row_encodable (row : list jvalue) : bool :=
  forallb (fun v => match v with
                    | JStr s => encodable s
                    | _ => true
                    end) row.

(** [writer.writerow(row)]: the line is written to the file at once, and
    encoded as it is written. *)
Definition writerow (row : list jvalue) : exn + list jvalue :=
  if row_encodable row then ret row else raise UnicodeEncodeError.

(** The body of the first loop for one document: the row written. *)
Definition csv_row (doc : jvalue) : exn + list jvalue :=
  name <- doc_get doc (lit "name") sentinel_name ;;
  public_url <- doc_get doc (lit "publicUrl") sentinel_url ;;
  writerow [name; public_url].

(** The rows written after the header, and the exception that ended the
    loop early, if one did: that of [doc.get] or that of
    [writer.writerow]. *)
Fixpoint csv_rows (documents : list jvalue) : list (list jvalue) * option exn :=
  match documents with
  | [] => ([], None)
  | doc :: rest =>
      match csv_row doc with
      | inl e => ([], Some e)
      | inr row =>
          let (rows, err) := csv_rows rest in
          (row :: rows, err)
      end
  end.

Definition csv_header : list jvalue := [JStr (lit "name"); JStr (lit "url")].

(** One [f.write] of the loop over the documents. *)
Inductive script_item : Type :=
| SkipComment (name : str)
| Echo (name : str)
| Wget (full_output_path public_url : str).

(** The text of each write, as its f-string builds it. *)
Definition render (i : script_item) : str :=
  match i with
  | SkipComment name =>
      lit "# SKIPPING: No publicUrl found for '" ++ name ++ lit "'" ++ nl ++ nl
  | Echo name =>
      lit "echo " ++ dq ++ lit "Downloading: " ++ name ++ dq ++ nl
  | Wget full_output_path public_url =>
      lit "wget -U " ++ dq ++ lit "Mozilla/5.0" ++ dq ++
      lit " --no-check-certificate -O " ++ dq ++ full_output_path ++ dq ++
      lit " " ++ dq ++ public_url ++ dq ++ nl ++ nl
  end.

(** The argument of [re.sub] must be a string. *)
Definition re_text (v : jvalue) : exn + str :=
  match v with
  | JStr s => ret s
  | _ => raise TypeError
  end.

(** The body of the second loop for one document. *)
Definition script_entry (E : Env) (dir : str) (doc : jvalue)
  : exn + list script_item :=
  name <- doc_get doc (lit "name") sentinel_name ;;
  public_url <- doc_get doc (lit "publicUrl") sentinel_url ;;
  skip <- no_url_found_in public_url ;;
  if skip then ret [SkipComment (fmt E name)]
  else
    stem <- re_text name ;;
    let output_filename := safe_filename stem ++ lit ".pdf" in
    let full_output_path := path_join dir output_filename in
    ret [Echo (fmt E name); Wget full_output_path (fmt E public_url)].

(** The [f.write] calls of the second loop, in order, and the exception
    that the loop body raised before a write ([doc.get], the [in] test,
    [re.sub]), if it did.  Whether a write goes through is the file's
    business: see [write_all] and [write_artifacts]. *)
Fixpoint script_items (E : Env) (dir : str) (documents : list jvalue)
  : list script_item * option exn :=
  match documents with
  | [] => ([], None)
  | doc :: rest =>
      match script_entry E dir doc with
      | inl e => ([], Some e)
      | inr entry =>
          let (items, err) := script_items E dir rest in
          (entry ++ items, err)
      end
  end.

(** The four writes before the loop. *)
Definition script_header (dir : str) : str :=
  lit "#!/bin/sh" ++ nl ++
  lit "# Auto-generated PowerDMS download script" ++ nl ++ nl ++
  lit "# Create the download directory if it doesn't exist" ++ nl ++
  lit "mkdir -p " ++ dq ++ dir ++ dq ++ nl ++ nl.

Definition script_text (dir : str) (items : list script_item) : str :=
  script_header dir ++ concat (List.map render items).

(** The same four writes, one chunk for each [f.write]. *)
Definition script_header_writes (dir : str) : list str :=
  [lit "#!/bin/sh" ++ nl;
   lit "# Auto-generated PowerDMS download script" ++ nl ++ nl;
   lit "# Create the download directory if it doesn't exist" ++ nl;
   lit "mkdir -p " ++ dq ++ dir ++ dq ++ nl ++ nl].

(** Sections 3 to 6 of the source: from the decoded body to the files.
    Each [with open] either fails to open, and the run ends with no such
    file, or leaves the file with what was written before the block
    ended, by its end or by an exception.  In the second block a write
    that cannot be encoded ends the loop at that write; an exception of
    the loop body ends it after the writes issued before. *)
Definition write_artifacts (E : Env) (site_name : str) (data : jvalue) : outcome :=
  match data with
  | JObj fields =>
      match lookup (lit "data") fields with
      | Some (JArr documents) =>
          if is_empty documents
          then {| status := NoDocumentsFound; files := [] |}
          else
            let dir := download_dir site_name in
            match open_w (csv_filename site_name) with
            | Some e => {| status := Uncaught e; files := [] |}
            | None =>
                let (rows, csv_err) := csv_rows documents in
                let csv_file :=
                  (csv_filename site_name, CsvRows (csv_header :: rows)) in
                match csv_err with
                | Some e => {| status := Uncaught e; files := [csv_file] |}
                | None =>
                    match open_w (script_filename site_name) with
                    | Some e => {| status := Uncaught e; files := [csv_file] |}
                    | None =>
                        let (items, sh_err) := script_items E dir documents in
                        let (written, write_err) :=
                          write_all (script_header_writes dir ++
                                     List.map render items) in
                        let sh_file :=
                          (script_filename site_name, Text written) in
                        {| status := match write_err, sh_err with
                                     | Some e, _ => Uncaught e
                                     | None, Some e => Uncaught e
                                     | None, None => AllDone
                                     end;
                           files := [csv_file; sh_file] |}
                    end
                end
            end
      | _ =>
          {| status := NoDataList;
             files := [(lit "debug.json", JsonDump data)] |}
      end
  | _ => {| status := Uncaught AttributeError; files := [] |}
  end.

(** ** The whole run *)

Definition scrape_powerdms_site (E : Env) (url : str) : outcome :=
  match resolve_site E url with
  | inl x => {| status := x; files := [] |}
  | inr (site_name, json_api_url) =>
      match fetch E json_api_url with
      | inl o => o
      | inr data => write_artifacts E site_name data
      end
  end.

(** ** Document records *)

(** The record of the data model: a dict whose [name] and [publicUrl]
    entries are strings or absent. *)
Record DocumentRecord : Type := {
  name : option str;
  publicUrl : option str
}.

Definition opt_field (key : str) (v : option str) : list (str * jvalue) :=
  match v with
  | Some s => [(key, JStr s)]
  | None => []
  end.

(** The decoded JSON of a record. *)
Definition doc_json (d : DocumentRecord) : jvalue :=
  JObj (opt_field (lit "name") (name d) ++ opt_field (lit "publicUrl") (publicUrl d)).

(** The two values the loops read from a record. *)
Definition name_of (d : DocumentRecord) : str :=
  match name d with Some n => n | None => sentinel_name end.

Definition url_of (d : DocumentRecord) : str :=
  match publicUrl d with Some u => u | None => sentinel_url end.

(** ** Vocabulary of the properties *)

(** The nine reserved characters, as the character class lists them. *)
Definition reserved_chars : str := lit "<>:" ++ dq ++ lit "/\|?*".

(** Neither reserved nor whitespace. *)
Definition clean_char (c : char) : Prop :=
  is_reserved c = false /\ is_space c = false.

(** Reserved or whitespace. *)
Definition blank_char (c : char) : bool := is_reserved c || is_space c.

(** How often [c] occurs in [t]. *)
Definition count_char (c : char) (t : str) : nat :=
  length (filter (N.eqb c) t).

(** What the first loop reads from a record, and what the body of the
    second loop comes to on one. *)
Definition row_of (d : DocumentRecord) : list jvalue :=
  [JStr (name_of d); JStr (url_of d)].

Definition entry_of (dir : str) (d : DocumentRecord) : list script_item :=
  if contains sentinel_url (url_of d)
  then [SkipComment (name_of d)]
  else [Echo (name_of d);
        Wget (path_join dir (safe_filename (name_of d) ++ lit ".pdf")) (url_of d)].

(** ** A sample world *)

Module Sample.

(** The URL of the script's own help text, a URL on another host, and
    what [urlparse] makes of them. *)
Definition url : str :=
  lit "https://public.powerdms.com/MassStatePolice/tree/147101".

Definition parsed : ParseResult :=
  {| netloc := lit "public.powerdms.com";
     path := lit "/MassStatePolice/tree/147101" |}.

Definition other_url : str := lit "https://example.com/MassStatePolice/tree".

Definition other_parsed : ParseResult :=
  {| netloc := lit "example.com"; path := lit "/MassStatePolice/tree" |}.

(** Any other text is taken as one with no scheme: an empty [netloc] and
    the whole text as [path]. *)
Definition parse (u : str) : exn + ParseResult :=
  if str_eqb u url then inr parsed
  else if str_eqb u other_url then inr other_parsed
  else inr {| netloc := []; path := u |}.

(** A world whose server answers every GET with [answer]. *)
Definition env (answer : lib_exn + Response) : Env :=
  {| urlparse := parse;
     session_get := fun _ => answer;
     py_str := fun _ => lit "None" |}.

(** A 200 response with the given body and decoding. *)
Definition ok (body : str) (decoded : lib_exn + jvalue) : Response :=
  {| raise_for_status := None; text := body; json := decoded |}.

(** The exception of [json.loads]: a [ValueError], none of the
    [requests] classes. *)
Definition json_decode_error : lib_exn :=
  {| isinstance_HTTPError := false;
     isinstance_RequestException := false;
     isinstance_JSONDecodeError := true;
     response_status_code := None |}.

Definition doc (n u : string) : DocumentRecord :=
  {| name := Some (lit n); publicUrl := Some (lit u) |}.

(** The catalog of two records: one with a URL, one without. *)
Definition catalog : list DocumentRecord :=
  [doc "A/B" "https://x/a.pdf"; {| name := Some (lit "C"); publicUrl := None |}].

Definition catalog_json (cat : list DocumentRecord) : jvalue :=
  JObj [(lit "data", JArr (List.map doc_json cat))].

(** The server answers with the two-record catalog, with an empty
    catalog, or with a page that is no JSON. *)
Definition world : Env := env (inr (ok [] (inr (catalog_json catalog)))).

Definition empty_response : Response := ok [] (inr (catalog_json [])).
Definition empty_world : Env := env (inr empty_response).

Definition html_response : Response :=
  ok (lit "<html>Not found</html>") (inl json_decode_error).
Definition html_world : Env := env (inr html_response).

Definition site_name : str := lit "MassStatePolice".
Definition json_api_url : str :=
  lit "https://public.powerdms.com/MassStatePolice/documents".

End Sample.

(** ** Vocabulary of the further properties *)

(** [isinstance(v, dict)] and [isinstance(v, list)]. *)
Definition is_dict (v : jvalue) : bool :=
  match v with JObj _ => true | _ => false end.

Definition is_list (v : jvalue) : bool :=
  match v with JArr _ => true | _ => false end.




(** The two strings of a record can be written to a UTF-8 file. *)
Definition record_encodable (d : DocumentRecord) : bool :=
  encodable (name_of d) && encodable (url_of d).

(** The exits taken before any [open]. *)
Definition silent_exit (x : exit) : bool :=
  match x with
  | NotValidPowerDMSUrl | CouldNotParseUrl _ | HttpError _ _
  | RequestError _ | NoDocumentsFound => true
  | _ => false
  end.

(** ** More sample worlds *)

Module Cases.

(** A 404: [raise_for_status()] raises an [HTTPError] that carries the
    response. *)
Definition not_found : lib_exn :=
  {| isinstance_HTTPError := true;
     isinstance_RequestException := true;
     isinstance_JSONDecodeError := false;
     response_status_code := Some 404%Z |}.

Definition not_found_response : Response :=
  {| raise_for_status := Some not_found;
     text := lit "Not Found";
     json := inl Sample.json_decode_error |}.

Definition not_found_world : Env := Sample.env (inr not_found_response).

(** A decode error that is a [RequestException] as well. *)
Definition request_decode_error : lib_exn :=
  {| isinstance_HTTPError := false;
     isinstance_RequestException := true;
     isinstance_JSONDecodeError := true;
     response_status_code := None |}.

Definition page_response : Response :=
  Sample.ok (lit "<html>Not found</html>") (inl request_decode_error).

Definition page_world : Env := Sample.env (inr page_response).

(** A body that decodes to a list, and one that decodes to an object
    with no [data] entry. *)
Definition list_response : Response := Sample.ok [] (inr (JArr [])).
Definition list_world : Env := Sample.env (inr list_response).

Definition message_fields : list (str * jvalue) :=
  [(lit "message", JStr (lit "Not authorized"))].
Definition message_response : Response := Sample.ok [] (inr (JObj message_fields)).
Definition message_world : Env := Sample.env (inr message_response).

(** Catalogs with an entry that is no record: a string among the
    documents, and a document whose [publicUrl] is null. *)
Definition stray_documents : list jvalue :=
  List.map doc_json [Sample.doc "A/B" "https://x/a.pdf"] ++
  JStr (lit "oops") :: List.map doc_json [Sample.doc "D" "https://x/d.pdf"].

Definition null_url_fields : list (str * jvalue) :=
  [(lit "name", JStr (lit "N")); (lit "publicUrl", JNull)].

Definition null_url_documents : list jvalue :=
  List.map doc_json [Sample.doc "A/B" "https://x/a.pdf"] ++
  JObj null_url_fields :: List.map doc_json [Sample.doc "D" "https://x/d.pdf"].

Definition stray_response : Response :=
  Sample.ok [] (inr (JObj [(lit "data", JArr stray_documents)])).
Definition stray_world : Env := Sample.env (inr stray_response).

Definition null_url_response : Response :=
  Sample.ok [] (inr (JObj [(lit "data", JArr null_url_documents)])).
Definition null_url_world : Env := Sample.env (inr null_url_response).

(** A catalog with a record whose name is a lone surrogate. *)
Definition surrogate_record : DocumentRecord :=
  {| name := Some [55296]; publicUrl := Some (lit "https://x/s.pdf") |}.

Definition surrogate_documents : list jvalue :=
  List.map doc_json [Sample.doc "A/B" "https://x/a.pdf"] ++
  doc_json surrogate_record :: List.map doc_json [Sample.doc "D" "https://x/d.pdf"].

Definition surrogate_response : Response :=
  Sample.ok [] (inr (JObj [(lit "data", JArr surrogate_documents)])).
Definition surrogate_world : Env := Sample.env (inr surrogate_response).

(** A site name of 250 letters, and the world in which its URL parses as
    [urlparse] parses it. *)
Definition long_site : str := repeat 97 250.
Definition long_url : str := lit "https://public.powerdms.com/" ++ long_site.
Definition long_parsed : ParseResult :=
  {| netloc := lit "public.powerdms.com"; path := lit "/" ++ long_site |}.
Definition long_api_url : str :=
  lit "https://public.powerdms.com/" ++ long_site ++ lit "/documents".
Definition long_response : Response :=
  Sample.ok [] (inr (Sample.catalog_json Sample.catalog)).

Definition long_world : Env :=
  {| urlparse := fun u =>
       if str_eqb u long_url then inr long_parsed else Sample.parse u;
     session_get := fun _ => inr long_response;
     py_str := fun _ => lit "None" |}.

(** A world in which the endpoint of the sample site parses as
    [urlparse] parses it. *)
Definition endpoint_parsed : ParseResult :=
  {| netloc := lit "public.powerdms.com";
     path := lit "/MassStatePolice/documents" |}.

Definition endpoint_world : Env :=
  {| urlparse := fun u =>
       if str_eqb u Sample.json_api_url then inr endpoint_parsed
       else Sample.parse u;
     session_get := fun _ => inr Sample.empty_response;
     py_str := fun _ => lit "None" |}.

End Cases.

(** * Properties *)

(** ** Strings *)

Lemma lstrip_no_space (t : str) :
  Forall (fun c => is_space c = false) t -> lstrip t = t.
Proof.
  destruct 1 as [|c t Hc _]; simpl; [reflexivity|].
  now rewrite Hc.
Qed.

Lemma strip_no_space (t : str) :
  Forall (fun c => is_space c = false) t -> strip t = t.
Proof.
  intros H. unfold strip, rstrip.
  rewrite (lstrip_no_space t H).
  rewrite lstrip_no_space, rev_involutive; [reflexivity|].
  apply Forall_rev, H.
Qed.

Lemma sub_spaces_from_no_space (b : bool) (t : str) :
  Forall (fun c => is_space c = false) (sub_spaces_from b t).
Proof.
  revert b. induction t as [|c t IH]; intros b; simpl; [constructor|].
  destruct (is_space c) eqn:Hc.
  - destruct b; [apply IH|]. constructor; [reflexivity | apply IH].
  - constructor; [exact Hc | apply IH].
Qed.

Lemma sub_spaces_from_not_reserved (b : bool) (t : str) :
  Forall (fun c => is_reserved c = false) t ->
  Forall (fun c => is_reserved c = false) (sub_spaces_from b t).
Proof.
  intros H. revert b. induction H as [|c t Hc _ IH]; intros b; simpl; [constructor|].
  destruct (is_space c).
  - destruct b; [apply IH|]. constructor; [reflexivity | apply IH].
  - constructor; [exact Hc | apply IH].
Qed.

Lemma sub_reserved_not_reserved (t : str) :
  Forall (fun c => is_reserved c = false) (sub_reserved t).
Proof.
  unfold sub_reserved. apply Forall_map.
  induction t as [|c t IH]; constructor; [|exact IH].
  destruct (is_reserved c) eqn:Hc; [reflexivity | exact Hc].
Qed.

Lemma Forall_firstn {A} (P : A -> Prop) (n : nat) (l : list A) :
  Forall P l -> Forall P (firstn n l).
Proof.
  intros H. revert n. induction H; intros [|n]; simpl; constructor; auto.
Qed.

Lemma Forall_drop_last (P : char -> Prop) (t : str) :
  Forall P t -> Forall P (drop_last t).
Proof. apply Forall_firstn. Qed.

(** The text before the final truncation is free of reserved characters
    and of whitespace. *)
Lemma safe_filename_clean (x : str) : Forall clean_char (safe_filename x).
Proof.
  unfold safe_filename.
  set (t := sub_spaces (sub_reserved x)).
  assert (Hs : Forall (fun c => is_space c = false) t)
    by apply sub_spaces_from_no_space.
  assert (Hr : Forall (fun c => is_reserved c = false) t)
    by apply sub_spaces_from_not_reserved, sub_reserved_not_reserved.
  rewrite (strip_no_space t Hs).
  assert (Hc : Forall clean_char t).
  { apply Forall_forall. intros c Hin. split.
    - exact (proj1 (Forall_forall _ _) Hr c Hin).
    - exact (proj1 (Forall_forall _ _) Hs c Hin). }
  apply Forall_firstn. destruct (endswith t (lit ".")); [apply Forall_drop_last|]; exact Hc.
Qed.

Lemma is_reserved_spec (c : char) :
  is_reserved c = true <-> In c reserved_chars.
Proof.
  unfold is_reserved, reserved_chars. cbn.
  rewrite !orb_true_iff, !N.eqb_eq. intuition (subst; auto 10).
Qed.

Lemma sub_reserved_clean (t : str) :
  Forall clean_char t -> sub_reserved t = t.
Proof.
  unfold sub_reserved.
  induction 1 as [|c t [Hr _] _ IH]; simpl; [reflexivity|].
  now rewrite Hr, IH.
Qed.

Lemma sub_spaces_from_clean (b : bool) (t : str) :
  Forall clean_char t -> sub_spaces_from b t = t.
Proof.
  intros H. revert b.
  induction H as [|c t [_ Hs] _ IH]; intros b; simpl; [reflexivity|].
  now rewrite Hs, IH.
Qed.

Lemma clean_no_space (t : str) :
  Forall clean_char t -> Forall (fun c => is_space c = false) t.
Proof. apply Forall_impl. now intros c [_ H]. Qed.

(** On a text with no reserved character and no whitespace only the dot
    rule and the truncation act. *)
Lemma safe_filename_on_clean (t : str) :
  Forall clean_char t ->
  safe_filename t =
  firstn 200 (if endswith t (lit ".") then drop_last t else t).
Proof.
  intros H. unfold safe_filename, sub_spaces.
  rewrite (sub_reserved_clean t H), (sub_spaces_from_clean false t H).
  now rewrite (strip_no_space t (clean_no_space t H)).
Qed.

Lemma drop_last_length (t : str) : length (drop_last t) = (length t - 1)%nat.
Proof. unfold drop_last. rewrite length_firstn. lia. Qed.

Lemma safe_filename_length (x : str) : (length (safe_filename x) <= 200)%nat.
Proof. unfold safe_filename. rewrite length_firstn. lia. Qed.

Lemma endswith_nonempty (t s : str) :
  s <> [] -> endswith t s = true -> t <> [].
Proof.
  intros Hs H ->. unfold endswith in H. simpl in H.
  destruct (rev s) eqn:Hr; [|discriminate].
  apply Hs. rewrite <- (rev_involutive s), Hr. reflexivity.
Qed.

(** A second pass does nothing but the dot rule. *)
Lemma safe_filename_twice (x : str) :
  safe_filename (safe_filename x) =
  if endswith (safe_filename x) (lit ".")
  then drop_last (safe_filename x)
  else safe_filename x.
Proof.
  rewrite (safe_filename_on_clean _ (safe_filename_clean x)).
  apply firstn_all2.
  pose proof (safe_filename_length x) as Hlen.
  destruct (endswith (safe_filename x) (lit ".")); [rewrite drop_last_length|]; lia.
Qed.

(** X4: the sanitizer repeats itself exactly on the inputs whose result
    does not end with a dot. *)
Lemma safe_filename_idempotent_iff (x : str) :
  safe_filename (safe_filename x) = safe_filename x <->
  endswith (safe_filename x) (lit ".") = false.
Proof.
  rewrite safe_filename_twice.
  destruct (endswith (safe_filename x) (lit ".")) eqn:He.
  - split; [|discriminate]. intros Heq. exfalso.
    assert (Hne : safe_filename x <> []).
    { apply (endswith_nonempty _ (lit ".")); [discriminate | exact He]. }
    apply (f_equal (@length char)) in Heq. rewrite drop_last_length in Heq.
    destruct (safe_filename x); [congruence | simpl in Heq; lia].
  - split; reflexivity.
Qed.

Lemma sub_spaces_from_blank (b : bool) (t : str) :
  Forall (fun c => is_space c = true) t ->
  sub_spaces_from b t =
  if b || is_empty t then [] else [c_underscore].
Proof.
  intros H. revert b. induction H as [|c t Hc _ IH]; intros b; simpl.
  - now rewrite orb_true_r.
  - rewrite Hc, IH. simpl. rewrite orb_false_r. now destruct b.
Qed.

(** X5: what the sanitizer makes of a text of reserved characters and
    whitespace only: one underscore, unless the text is empty. *)
Lemma safe_filename_blank (x : str) :
  Forall (fun c => blank_char c = true) x ->
  safe_filename x = if is_empty x then [] else [c_underscore].
Proof.
  intros H. unfold safe_filename, sub_spaces.
  assert (Hs : Forall (fun c => is_space c = true) (sub_reserved x)).
  { unfold sub_reserved. apply Forall_map. revert H. apply Forall_impl.
    intros c Hc. unfold blank_char in Hc.
    destruct (is_reserved c); [reflexivity | exact Hc]. }
  rewrite (sub_spaces_from_blank false _ Hs).
  destruct x; reflexivity.
Qed.

(** ** Claims on the sanitizer *)

(** C5: whatever the input, none of the nine reserved characters occurs in
    the sanitizer's output. *)
Theorem safe_filename_no_reserved (x : str) :
  Forall (fun c => ~ In c reserved_chars) (safe_filename x).
Proof.
  generalize (safe_filename_clean x). apply Forall_impl.
  intros c [Hr _] Hin. apply is_reserved_spec in Hin. congruence.
Qed.

(** C2: the sanitizer is not idempotent.  Only one trailing dot is
    dropped, so a title ending in two dots loses one dot at each pass. *)
Theorem safe_filename_second_pass_differs :
  safe_filename (lit "a..") = lit "a." /\
  safe_filename (safe_filename (lit "a..")) = lit "a" /\
  str_eqb (safe_filename (safe_filename (lit "a.."))) (safe_filename (lit "a..")) = false.
Proof. repeat split. Qed.

(** C3: the underscores that stand for leading and trailing whitespace
    stay.  [strip()] runs after the whitespace has become underscores and
    removes nothing; a title of reserved characters and whitespace becomes
    one underscore, not the empty string. *)
Theorem safe_filename_keeps_outer_underscores :
  safe_filename (lit " a ") = lit "_a_" /\
  safe_filename (lit "/ ?") = lit "_" /\
  safe_filename (lit " ") = lit "_".
Proof. repeat split. Qed.

(** ** The site name and the output path *)

Lemma split_slash_no_slash (t : str) :
  Forall (fun seg => ~ In c_slash seg) (split_slash t).
Proof.
  induction t as [|c t IH]; simpl.
  - constructor; [intros [] | constructor].
  - destruct (c =? c_slash) eqn:Hc.
    + constructor; [intros [] | exact IH].
    + apply N.eqb_neq in Hc.
      destruct (split_slash t) as [|seg segs].
      * constructor; [|constructor]. intros [H|[]]. congruence.
      * inversion IH as [|? ? Hseg Hsegs]; subst.
        constructor; [|exact Hsegs]. intros [H|H]; [congruence | exact (Hseg H)].
Qed.

Lemma path_parts_In (p site : str) :
  In site (path_parts p) -> ~ In c_slash site /\ site <> [].
Proof.
  unfold path_parts. rewrite filter_In. intros [Hin Hne]. split.
  - exact (proj1 (Forall_forall _ _) (split_slash_no_slash p) site Hin).
  - intros ->. discriminate.
Qed.

(** No non-empty segment in the path means no part at all. *)
Lemma path_parts_nil (p : str) :
  (forall seg, In seg (split_slash p) -> seg = []) -> path_parts p = [].
Proof.
  intros H. unfold path_parts.
  induction (split_slash p) as [|seg segs IH]; simpl; [reflexivity|].
  rewrite (H seg (or_introl eq_refl)). simpl.
  apply IH. intros s Hs. apply H. now right.
Qed.

(** What a successful resolution says about the URL. *)
Lemma resolve_site_inv (E : Env) (url site_name json_api_url : str) :
  resolve_site E url = inr (site_name, json_api_url) ->
  exists p,
    urlparse E url = inr p /\
    endswith (netloc p) (lit "powerdms.com") = true /\
    nth_error (path_parts (path p)) 0 = Some site_name /\
    json_api_url = api_url (netloc p) site_name.
Proof.
  unfold resolve_site. destruct (urlparse E url) as [e|p]; [discriminate|].
  destruct (endswith (netloc p) (lit "powerdms.com")) eqn:Hd; simpl; [|discriminate].
  destruct (path_parts (path p)) as [|s parts] eqn:Hp; simpl; [discriminate|].
  intros H. injection H as <- <-. exists p. rewrite Hp. repeat split; assumption.
Qed.

Lemma resolved_site_name (E : Env) (url site_name json_api_url : str) :
  resolve_site E url = inr (site_name, json_api_url) ->
  ~ In c_slash site_name /\ site_name <> [].
Proof.
  intros H. destruct (resolve_site_inv _ _ _ _ H) as (p & _ & _ & Hn & _).
  apply (path_parts_In (path p)). eapply nth_error_In, Hn.
Qed.

Lemma endswith_char (t : str) (c : char) :
  endswith t [c] = true -> In c t.
Proof.
  unfold endswith. simpl. intros H. apply in_rev.
  destruct (rev t) as [|x r]; simpl in H; [discriminate|].
  rewrite andb_true_r in H. apply N.eqb_eq in H. subst. now left.
Qed.

Lemma download_dir_no_trailing_slash (site_name : str) :
  ~ In c_slash site_name ->
  endswith (download_dir site_name) (lit "/") = false.
Proof.
  intros Hs. destruct (endswith _ _) eqn:He; [|reflexivity].
  apply endswith_char in He. unfold download_dir in He.
  apply in_app_or in He. destruct He as [He|He]; [|contradiction].
  exfalso. revert He. vm_compute. intuition discriminate.
Qed.

(** The path that [os.path.join] builds for a document: the directory, a
    slash, the sanitized name and the extension. *)
Lemma output_path (site_name n : str) :
  ~ In c_slash site_name ->
  path_join (download_dir site_name) (safe_filename n ++ lit ".pdf") =
  download_dir site_name ++ lit "/" ++ safe_filename n ++ lit ".pdf".
Proof.
  intros Hs. unfold path_join.
  assert (Hb : startswith (safe_filename n ++ lit ".pdf") (lit "/") = false).
  { pose proof (safe_filename_clean n) as Hc.
    destruct (safe_filename n) as [|c t]; [reflexivity|].
    inversion Hc as [|? ? [Hr _] _]; subst. simpl.
    destruct (c =? 47) eqn:H47; [|reflexivity].
    apply N.eqb_eq in H47. subst. discriminate. }
  rewrite Hb, (download_dir_no_trailing_slash _ Hs). reflexivity.
Qed.

(** ** The two loops on document records *)

Lemma doc_get_name (d : DocumentRecord) :
  doc_get (doc_json d) (lit "name") sentinel_name = inr (JStr (name_of d)).
Proof. destruct d as [[n|] [u|]]; reflexivity. Qed.

Lemma doc_get_publicUrl (d : DocumentRecord) :
  doc_get (doc_json d) (lit "publicUrl") sentinel_url = inr (JStr (url_of d)).
Proof. destruct d as [[n|] [u|]]; reflexivity. Qed.

Lemma script_entry_doc (E : Env) (dir : str) (d : DocumentRecord) :
  script_entry E dir (doc_json d) = inr (entry_of dir d).
Proof.
  unfold script_entry, entry_of.
  rewrite doc_get_name, doc_get_publicUrl. cbn [bind no_url_found_in ret].
  destruct (contains sentinel_url (url_of d)); reflexivity.
Qed.

(** The first loop on a record: its row, unless one of its two strings
    holds a lone surrogate. *)
Lemma csv_row_doc (d : DocumentRecord) :
  csv_row (doc_json d) =
  if record_encodable d then inr (row_of d) else inl UnicodeEncodeError.
Proof.
  unfold csv_row. rewrite doc_get_name, doc_get_publicUrl.
  cbn [bind]. unfold writerow, row_encodable, record_encodable, row_of.
  cbn [forallb]. rewrite andb_true_r. reflexivity.
Qed.

Lemma csv_rows_catalog (cat : list DocumentRecord) :
  forallb record_encodable cat = true ->
  csv_rows (List.map doc_json cat) = (List.map row_of cat, None).
Proof.
  induction cat as [|d cat IH]; [reflexivity|].
  cbn [forallb]. rewrite andb_true_iff. intros [Hd Hcat].
  cbn [List.map csv_rows]. rewrite csv_row_doc, Hd, (IH Hcat). reflexivity.
Qed.


Lemma script_items_catalog (E : Env) (dir : str) (cat : list DocumentRecord) :
  script_items E dir (List.map doc_json cat) = (flat_map (entry_of dir) cat, None).
Proof.
  induction cat as [|d cat IH]; [reflexivity|].
  cbn [List.map script_items flat_map]. rewrite script_entry_doc, IH.
  reflexivity.
Qed.

Lemma count_char_app (c : char) (a b : str) :
  count_char c (a ++ b) = (count_char c a + count_char c b)%nat.
Proof. unfold count_char. now rewrite filter_app, length_app. Qed.

(** The run on the two-record catalog: the index with two rows, the
    second with the sentinel in its url cell, and the script with one
    download and one skip comment. *)
Example sample_run :
  scrape_powerdms_site Sample.world Sample.url =
  {| status := AllDone;
     files :=
       [(lit "MassStatePolice_documents.csv",
         CsvRows [[JStr (lit "name"); JStr (lit "url")];
                  [JStr (lit "A/B"); JStr (lit "https://x/a.pdf")];
                  [JStr (lit "C"); JStr (lit "no-url-found")]]);
        (lit "download_MassStatePolice.sh",
         Text (lit "#!/bin/sh" ++ nl ++
               lit "# Auto-generated PowerDMS download script" ++ nl ++ nl ++
               lit "# Create the download directory if it doesn't exist" ++ nl ++
               lit "mkdir -p " ++ dq ++ lit "downloaded_MassStatePolice" ++ dq ++ nl ++ nl ++
               lit "echo " ++ dq ++ lit "Downloading: A/B" ++ dq ++ nl ++
               lit "wget -U " ++ dq ++ lit "Mozilla/5.0" ++ dq ++
               lit " --no-check-certificate -O " ++ dq ++
               lit "downloaded_MassStatePolice/A_B.pdf" ++ dq ++ lit " " ++ dq ++
               lit "https://x/a.pdf" ++ dq ++ nl ++ nl ++
               lit "# SKIPPING: No publicUrl found for 'C'" ++ nl ++ nl))] |}.
Proof. vm_compute. reflexivity. Qed.

(** ** Claims on the script writer *)

(** What the body of the second loop writes for a record, in a run that
    resolved the site name: the skip comment alone when the publicUrl
    contains the sentinel text, and otherwise the echo line and one wget
    invocation with the user agent, the certificate check off, the output
    path [downloaded_{siteName}/{safe_filename(name)}.pdf] and the
    record's publicUrl. *)
Lemma script_entry_of_record (E : Env) (url site_name json_api_url : str)
        (d : DocumentRecord) :
  resolve_site E url = inr (site_name, json_api_url) ->
  (url_of d = sentinel_url ->
   script_entry E (download_dir site_name) (doc_json d) =
   inr [SkipComment (name_of d)]) /\
  script_entry E (download_dir site_name) (doc_json d) =
  inr (if contains sentinel_url (url_of d)
       then [SkipComment (name_of d)]
       else [Echo (name_of d);
             Wget (download_dir site_name ++ lit "/" ++
                   safe_filename (name_of d) ++ lit ".pdf")
                  (url_of d)]) /\
  (forall p u,
     render (Wget p u) =
     lit "wget -U " ++ dq ++ lit "Mozilla/5.0" ++ dq ++
     lit " --no-check-certificate -O " ++ dq ++ p ++ dq ++
     lit " " ++ dq ++ u ++ dq ++ nl ++ nl).
Proof.
  intros Hres. apply resolved_site_name in Hres. destruct Hres as [Hs _].
  rewrite script_entry_doc. unfold entry_of. rewrite (output_path _ _ Hs).
  repeat split. intros ->. reflexivity.
Qed.

Lemma script_entry_of_record_witness :
  resolve_site Sample.world Sample.url =
    inr (Sample.site_name, Sample.json_api_url) /\
  script_entry Sample.world (download_dir Sample.site_name)
    (doc_json (Sample.doc "A/B" "https://x/a.pdf")) =
  inr [Echo (lit "A/B");
       Wget (lit "downloaded_MassStatePolice/A_B.pdf") (lit "https://x/a.pdf")].
Proof.
  split; [reflexivity|].
  apply (script_entry_of_record Sample.world Sample.url Sample.site_name
           Sample.json_api_url (Sample.doc "A/B" "https://x/a.pdf")).
  reflexivity.
Defined.

(** C1: a record whose publicUrl differs from the sentinel but contains
    its text is treated as one with no publicUrl.  The index keeps the
    URL; the script says that no publicUrl was found and has no download
    for it. *)
Theorem url_containing_sentinel_is_skipped :
  str_eqb (url_of (Sample.doc "A" "https://x/no-url-found.pdf")) sentinel_url = false /\
  csv_row (doc_json (Sample.doc "A" "https://x/no-url-found.pdf")) =
  inr [JStr (lit "A"); JStr (lit "https://x/no-url-found.pdf")] /\
  script_entry Sample.world (download_dir Sample.site_name)
    (doc_json (Sample.doc "A" "https://x/no-url-found.pdf")) =
  inr [SkipComment (lit "A")] /\
  render (SkipComment (lit "A")) =
  lit "# SKIPPING: No publicUrl found for 'A'" ++ nl ++ nl.
Proof. repeat split. Qed.



(** C9: the sanitizer is not injective.  The titles [A/B] and [A:B] differ
    and have the same sanitized name, so a catalog holding both yields two
    wget invocations with one and the same output path. *)
Theorem colliding_titles_share_output_path (E : Env) :
  exists n1 n2 u1 u2 out,
    str_eqb n1 n2 = false /\
    safe_filename n1 = safe_filename n2 /\
    str_eqb u1 u2 = false /\
    script_items E (download_dir Sample.site_name)
      (List.map doc_json [ {| name := Some n1; publicUrl := Some u1 |};
                           {| name := Some n2; publicUrl := Some u2 |} ]) =
    ([Echo n1; Wget out u1; Echo n2; Wget out u2], None).
Proof.
  exists (lit "A/B"), (lit "A:B"), (lit "https://x/1.pdf"), (lit "https://x/2.pdf"),
         (lit "downloaded_MassStatePolice/A_B.pdf").
  repeat split.
Qed.

(** C10: nothing in the script is escaped.  The text written for a record
    is the fixed text of the f-strings around the raw name and the raw
    publicUrl; each double quote of a name or of a url is one more double
    quote in the line, next to the two that delimit it. *)
Theorem script_embeds_raw_text (E : Env) (dir : str) (d : DocumentRecord) :
  (exists items,
     script_entry E dir (doc_json d) = inr items /\
     concat (List.map render items) =
     if contains sentinel_url (url_of d)
     then lit "# SKIPPING: No publicUrl found for '" ++ name_of d ++ lit "'" ++ nl ++ nl
     else lit "echo " ++ dq ++ lit "Downloading: " ++ name_of d ++ dq ++ nl ++
          lit "wget -U " ++ dq ++ lit "Mozilla/5.0" ++ dq ++
          lit " --no-check-certificate -O " ++ dq ++
          path_join dir (safe_filename (name_of d) ++ lit ".pdf") ++ dq ++
          lit " " ++ dq ++ url_of d ++ dq ++ nl ++ nl) /\
  count_char c_dquote (render (Echo (name_of d))) = (2 + count_char c_dquote (name_of d))%nat /\
  count_char c_dquote (render (SkipComment (name_of d))) = count_char c_dquote (name_of d) /\
  (forall out,
     count_char c_dquote (render (Wget out (url_of d))) =
     (6 + count_char c_dquote out + count_char c_dquote (url_of d))%nat).
Proof.
  split.
  - exists (entry_of dir d). split; [apply script_entry_doc|].
    unfold entry_of. destruct (contains sentinel_url (url_of d));
      cbn [concat List.map]; rewrite app_nil_r; unfold render;
      rewrite <- ?app_assoc; reflexivity.
  - unfold render. repeat split; intros;
      rewrite !count_char_app; cbn; lia.
Qed.

(** ** Claims on the run *)

(** C6: a URL whose host does not end with [powerdms.com], or whose path
    has no non-empty segment, ends the run at the message for an invalid
    PowerDMS URL, and no file is written. *)
Theorem invalid_site_url_writes_nothing (E : Env) (url : str) (p : ParseResult) :
  urlparse E url = inr p ->
  endswith (netloc p) (lit "powerdms.com") = false \/
  (forall seg, In seg (split_slash (path p)) -> seg = []) ->
  scrape_powerdms_site E url =
  {| status := NotValidPowerDMSUrl; files := [] |}.
Proof.
  intros Hp Hbad. unfold scrape_powerdms_site, resolve_site. rewrite Hp.
  destruct Hbad as [Hd|Hseg].
  - rewrite Hd. reflexivity.
  - rewrite (path_parts_nil _ Hseg). simpl. rewrite orb_true_r. reflexivity.
Qed.

Lemma invalid_site_url_writes_nothing_witness :
  urlparse Sample.world Sample.other_url = inr Sample.other_parsed /\
  (endswith (netloc Sample.other_parsed) (lit "powerdms.com") = false \/
   (forall seg, In seg (split_slash (path Sample.other_parsed)) -> seg = [])) /\
  scrape_powerdms_site Sample.world Sample.other_url =
  {| status := NotValidPowerDMSUrl; files := [] |}.
Proof.
  split; [reflexivity|]. split; [left; reflexivity|].
  apply (invalid_site_url_writes_nothing Sample.world Sample.other_url
           Sample.other_parsed);
    [reflexivity | left; reflexivity].
Defined.

(** A run that reaches the fetch. *)
Lemma scrape_after_resolve (E : Env) (url site_name json_api_url : str) :
  resolve_site E url = inr (site_name, json_api_url) ->
  scrape_powerdms_site E url =
  match fetch E json_api_url with
  | inl o => o
  | inr data => write_artifacts E site_name data
  end.
Proof. intros H. unfold scrape_powerdms_site. now rewrite H. Qed.

(** The third [except] clause is reached only by a decode error that is
    no [RequestException], the one of [json.loads] alone (requests before
    2.27).  The run then writes the raw body, when it can be encoded, to
    [error_response.html] and nothing else. *)
Lemma plain_decode_error_writes_diagnostic
        (E : Env) (url site_name json_api_url : str) (r : Response) (e : lib_exn) :
  resolve_site E url = inr (site_name, json_api_url) ->
  session_get E json_api_url = inr r ->
  raise_for_status r = None ->
  json r = inl e ->
  isinstance_HTTPError e = false ->
  isinstance_RequestException e = false ->
  isinstance_JSONDecodeError e = true ->
  encodable (text r) = true ->
  scrape_powerdms_site E url =
  {| status := FailedToDecodeJson;
     files := [(lit "error_response.html", Text (text r))] |}.
Proof.
  intros Hres Hget Hok Hjson Hh Hr Hj Henc.
  rewrite (scrape_after_resolve _ _ _ _ Hres).
  unfold fetch, fetch_handler. rewrite Hget, Hok, Hjson, Hh, Hr, Hj.
  cbn [write_all]. rewrite Henc, app_nil_r. reflexivity.
Qed.

Lemma plain_decode_error_writes_diagnostic_witness :
  resolve_site Sample.html_world Sample.url =
    inr (Sample.site_name, Sample.json_api_url) /\
  session_get Sample.html_world Sample.json_api_url = inr Sample.html_response /\
  raise_for_status Sample.html_response = None /\
  json Sample.html_response = inl Sample.json_decode_error /\
  isinstance_HTTPError Sample.json_decode_error = false /\
  isinstance_RequestException Sample.json_decode_error = false /\
  isinstance_JSONDecodeError Sample.json_decode_error = true /\
  scrape_powerdms_site Sample.html_world Sample.url =
  {| status := FailedToDecodeJson;
     files := [(lit "error_response.html", Text (lit "<html>Not found</html>"))] |}.
Proof.
  do 7 (split; [reflexivity|]).
  apply (plain_decode_error_writes_diagnostic Sample.html_world Sample.url
           Sample.site_name Sample.json_api_url Sample.html_response
           Sample.json_decode_error); reflexivity.
Defined.

(** C4: the decode error that [response.json()] raises is a
    [RequestException] as well as a [JSONDecodeError] (requests from 2.27
    on).  On a body that is no JSON the run then ends at the
    request-error message and writes no [error_response.html]: the clause
    that would write it comes after the one that catches. *)
Theorem non_json_body_leaves_no_diagnostic :
  raise_for_status Cases.page_response = None /\
  json Cases.page_response = inl Cases.request_decode_error /\
  isinstance_JSONDecodeError Cases.request_decode_error = true /\
  isinstance_RequestException Cases.request_decode_error = true /\
  scrape_powerdms_site Cases.page_world Sample.url =
  {| status := RequestError Cases.request_decode_error; files := [] |}.
Proof. repeat split. Qed.

(** X13: the clause for [RequestException] comes before the one for the
    decode error: a decode error that is also a [RequestException] never
    reaches the third clause, and no diagnostic file is written. *)
Lemma decode_error_caught_as_request_error
      (E : Env) (url site_name json_api_url : str) (r : Response) (e : lib_exn) :
  resolve_site E url = inr (site_name, json_api_url) ->
  session_get E json_api_url = inr r ->
  raise_for_status r = None ->
  json r = inl e ->
  isinstance_HTTPError e = false ->
  isinstance_RequestException e = true ->
  scrape_powerdms_site E url = {| status := RequestError e; files := [] |}.
Proof.
  intros Hres Hget Hok Hjson Hh Hr.
  rewrite (scrape_after_resolve _ _ _ _ Hres).
  unfold fetch, fetch_handler. now rewrite Hget, Hok, Hjson, Hh, Hr.
Qed.

(** C7: a decoded object whose [data] is the empty list ends the run at
    the message that no documents were found; nothing is written, not
    even the [debug.json] of the no-data-list exit. *)
Theorem empty_catalog_writes_nothing
        (E : Env) (url site_name json_api_url : str) (r : Response)
        (fields : list (str * jvalue)) :
  resolve_site E url = inr (site_name, json_api_url) ->
  session_get E json_api_url = inr r ->
  raise_for_status r = None ->
  json r = inr (JObj fields) ->
  lookup (lit "data") fields = Some (JArr []) ->
  scrape_powerdms_site E url = {| status := NoDocumentsFound; files := [] |}.
Proof.
  intros Hres Hget Hok Hjson Hdata.
  rewrite (scrape_after_resolve _ _ _ _ Hres).
  unfold fetch. rewrite Hget, Hok, Hjson.
  unfold write_artifacts. now rewrite Hdata.
Qed.

Lemma empty_catalog_writes_nothing_witness :
  resolve_site Sample.empty_world Sample.url =
    inr (Sample.site_name, Sample.json_api_url) /\
  session_get Sample.empty_world Sample.json_api_url = inr Sample.empty_response /\
  raise_for_status Sample.empty_response = None /\
  json Sample.empty_response = inr (JObj [(lit "data", JArr [])]) /\
  lookup (lit "data") [(lit "data", JArr [])] = Some (JArr []) /\
  scrape_powerdms_site Sample.empty_world Sample.url =
  {| status := NoDocumentsFound; files := [] |}.
Proof.
  do 5 (split; [reflexivity|]).
  apply (empty_catalog_writes_nothing Sample.empty_world Sample.url
           Sample.site_name Sample.json_api_url Sample.empty_response
           [(lit "data", JArr [])]); reflexivity.
Defined.

(** * Further properties *)

(** ** The sanitizer *)

Lemma sub_spaces_from_length (b : bool) (t : str) :
  (length (sub_spaces_from b t) <= length t)%nat.
Proof.
  revert b. induction t as [|c t IH]; intros b; simpl; [lia|].
  destruct (is_space c); [destruct b|]; simpl;
    [specialize (IH true) | specialize (IH true) | specialize (IH false)]; lia.
Qed.

Lemma strip_sub_spaces (t : str) : strip (sub_spaces t) = sub_spaces t.
Proof. apply strip_no_space, sub_spaces_from_no_space. Qed.

(** The text before the dot rule and the truncation. *)
Lemma safe_filename_unfold (x : str) :
  safe_filename x =
  firstn 200 (if endswith (sub_spaces (sub_reserved x)) (lit ".")
              then drop_last (sub_spaces (sub_reserved x))
              else sub_spaces (sub_reserved x)).
Proof. unfold safe_filename. now rewrite strip_sub_spaces. Qed.

(** X1: the sanitized name has at most 200 code points and is never
    longer than the title. *)
Theorem safe_filename_length_bound (x : str) :
  (length (safe_filename x) <= Nat.min 200 (length x))%nat.
Proof.
  rewrite safe_filename_unfold, length_firstn.
  pose proof (sub_spaces_from_length false (sub_reserved x)) as H.
  unfold sub_reserved in H at 2. rewrite length_map in H.
  fold (sub_spaces (sub_reserved x)) in H.
  destruct (endswith _ _); [rewrite drop_last_length|]; lia.
Qed.

(** X2: the sanitized name holds no whitespace, whatever the title: no
    space, tab, line break or other Unicode space. *)
Theorem safe_filename_no_whitespace (x : str) :
  Forall (fun c => is_space c = false) (safe_filename x).
Proof. apply clean_no_space, safe_filename_clean. Qed.

Lemma blank_becomes_space (c : char) :
  blank_char c = true ->
  is_space (if is_reserved c then c_space else c) = true.
Proof.
  unfold blank_char. destruct (is_reserved c); [reflexivity|]. now simpl.
Qed.

(** X3: a title that starts with whitespace or with a reserved character
    gets a sanitized name that starts with an underscore. *)
Theorem safe_filename_leading_underscore (c : char) (x : str) :
  blank_char c = true ->
  exists rest, safe_filename (c :: x) = c_underscore :: rest.
Proof.
  intros Hc. rewrite safe_filename_unfold.
  unfold sub_spaces. cbn [sub_reserved List.map sub_spaces_from].
  rewrite (blank_becomes_space c Hc).
  set (t := sub_spaces_from true _).
  destruct (endswith (c_underscore :: t) (lit ".")) eqn:He.
  - destruct t as [|a t'] eqn:Ht; [discriminate He|].
    unfold drop_last. cbn [length Nat.sub firstn].
    eexists. reflexivity.
  - eexists. reflexivity.
Qed.

Lemma safe_filename_leading_underscore_witness :
  blank_char 47 = true /\
  exists rest, safe_filename (47 :: lit "etc/passwd") = c_underscore :: rest.
Proof.
  split; [reflexivity|].
  apply (safe_filename_leading_underscore 47 (lit "etc/passwd")). reflexivity.
Defined.

Lemma safe_filename_blank_witness :
  Forall (fun c => blank_char c = true) (lit "?? **") /\
  safe_filename (lit "?? **") = [c_underscore].
Proof.
  assert (H : Forall (fun c => blank_char c = true) (lit "?? **"))
    by (repeat constructor).
  split; [exact H|].
  exact (safe_filename_blank (lit "?? **") H).
Defined.

(** X6: a title with no reserved character and no whitespace, of at most
    200 code points and not ending with a dot, is its own sanitized
    name. *)
Theorem safe_filename_fixed_point (t : str) :
  Forall clean_char t ->
  (length t <= 200)%nat ->
  endswith t (lit ".") = false ->
  safe_filename t = t.
Proof.
  intros Hc Hlen Hdot.
  rewrite (safe_filename_on_clean t Hc), Hdot.
  now apply firstn_all2.
Qed.

Lemma safe_filename_fixed_point_witness :
  Forall clean_char (lit "A_B.v2") /\
  (length (lit "A_B.v2") <= 200)%nat /\
  endswith (lit "A_B.v2") (lit ".") = false /\
  safe_filename (lit "A_B.v2") = lit "A_B.v2".
Proof.
  assert (Hc : Forall clean_char (lit "A_B.v2"))
    by (repeat constructor).
  assert (Hlen : (length (lit "A_B.v2") <= 200)%nat) by (simpl; lia).
  assert (Hdot : endswith (lit "A_B.v2") (lit ".") = false) by reflexivity.
  split; [exact Hc | split; [exact Hlen | split; [exact Hdot|]]].
  exact (safe_filename_fixed_point (lit "A_B.v2") Hc Hlen Hdot).
Defined.

Lemma sub_spaces_from_false_nil (t : str) :
  sub_spaces_from false t = [] -> t = [].
Proof.
  destruct t as [|c t]; [reflexivity|]. simpl.
  destruct (is_space c); discriminate.
Qed.

Lemma sub_reserved_dot (x : str) :
  sub_reserved x = lit "." -> x = lit ".".
Proof.
  destruct x as [|c [|c' x]]; try discriminate. simpl.
  destruct (is_reserved c); intros H; [discriminate | exact H].
Qed.

Lemma sub_spaces_dot (t : str) :
  sub_spaces t = lit "." -> t = lit ".".
Proof.
  unfold sub_spaces. destruct t as [|c t]; [discriminate|]. simpl.
  destruct (is_space c); [discriminate|].
  intros H. injection H as Hc Ht.
  apply sub_spaces_from_false_nil in Ht. now subst.
Qed.

Lemma endswith_dot_short (t : str) :
  endswith t (lit ".") = true -> (length t <= 1)%nat -> t = lit ".".
Proof.
  destruct t as [|c [|c' t]]; simpl; intros He Hl; try discriminate; try lia.
  unfold endswith in He. simpl in He.
  rewrite andb_true_r in He. apply N.eqb_eq in He. now subst.
Qed.

Lemma firstn_200_nil (u : str) : firstn 200 u = [] -> u = [].
Proof. destruct u; [reflexivity | discriminate]. Qed.

(** X7: the sanitized name is empty for two titles only, the empty title
    and the title that is a single dot; the file written is then
    [.pdf]. *)
Theorem safe_filename_empty_iff (x : str) :
  safe_filename x = [] <-> x = [] \/ x = lit ".".
Proof.
  split.
  - rewrite safe_filename_unfold. intros H.
    set (t := sub_spaces (sub_reserved x)) in *.
    destruct (endswith t (lit ".")) eqn:He; apply firstn_200_nil in H.
    + right. apply sub_reserved_dot, sub_spaces_dot. fold t.
      apply endswith_dot_short; [exact He|].
      apply (f_equal (@length char)) in H.
      rewrite drop_last_length in H. simpl in H. lia.
    + left. subst t. unfold sub_spaces in H.
      apply sub_spaces_from_false_nil in H.
      destruct x; [reflexivity | discriminate].
  - intros [-> | ->]; reflexivity.
Qed.

Lemma sub_spaces_from_origin (b : bool) (t : str) :
  Forall (fun c => c = c_underscore \/ (In c t /\ is_space c = false))
         (sub_spaces_from b t).
Proof.
  revert b. induction t as [|c t IH]; intros b; simpl; [constructor|].
  assert (Hw : forall b', Forall (fun c0 => c0 = c_underscore \/
                                  ((c = c0 \/ In c0 t) /\ is_space c0 = false))
                                 (sub_spaces_from b' t)).
  { intros b'. generalize (IH b'). apply Forall_impl. intros a [Ha|[Ha Hs]]; auto. }
  destruct (is_space c) eqn:Hc.
  - destruct b; [apply Hw|]. constructor; [now left | apply Hw].
  - constructor; [right; auto | apply Hw].
Qed.

(** X8: the sanitizer invents no character but the underscore: every code
    point of the sanitized name is an underscore or occurs in the
    title. *)
Theorem safe_filename_chars_from_title (x : str) :
  Forall (fun c => c = c_underscore \/ In c x) (safe_filename x).
Proof.
  rewrite safe_filename_unfold. apply Forall_firstn.
  assert (H : Forall (fun c => c = c_underscore \/ In c x)
                     (sub_spaces (sub_reserved x))).
  { generalize (sub_spaces_from_origin false (sub_reserved x)).
    apply Forall_impl. intros c [Hc|[Hin Hs]]; [now left|]. right.
    unfold sub_reserved in Hin. apply in_map_iff in Hin.
    destruct Hin as (a & Ha & Hin).
    destruct (is_reserved a); subst; [discriminate Hs | exact Hin]. }
  destruct (endswith _ _); [apply Forall_drop_last|]; exact H.
Qed.

(** ** The site name *)

Lemma split_slash_not_nil (t : str) : split_slash t <> [].
Proof.
  destruct t as [|c t]; simpl; [discriminate|].
  destruct (c =? c_slash); [discriminate|].
  destruct (split_slash t); discriminate.
Qed.

(** The first segment is the text up to the first slash. *)
Lemma split_slash_hd (t seg : str) (segs : list str) :
  split_slash t = seg :: segs ->
  exists rest, t = seg ++ rest /\ (rest = [] \/ exists r, rest = c_slash :: r).
Proof.
  revert seg segs. induction t as [|c t IH]; intros seg segs; simpl.
  - intros H. injection H as <- <-. exists []. auto.
  - destruct (c =? c_slash) eqn:Hc.
    + apply N.eqb_eq in Hc. subst c. intros H. injection H as <- <-.
      exists (c_slash :: t). split; [reflexivity|]. right. now exists t.
    + destruct (split_slash t) as [|seg' segs'] eqn:Hs.
      * now destruct (split_slash_not_nil t).
      * intros H. injection H as <- <-.
        destruct (IH seg' segs' eq_refl) as (rest & Ht & Hrest).
        exists rest. split; [|exact Hrest]. simpl. now rewrite <- Ht.
Qed.

Lemma path_parts_cons (c : char) (t : str) :
  path_parts (c :: t) =
  if c =? c_slash then path_parts t
  else match split_slash t with
       | [] => [[c]]
       | seg :: segs => (c :: seg) :: filter (fun part => negb (is_empty part)) segs
       end.
Proof.
  unfold path_parts. simpl. destruct (c =? c_slash); [reflexivity|].
  destruct (split_slash t); reflexivity.
Qed.

(** The first part is what follows the leading slashes, up to the next
    slash. *)
Lemma path_parts_first (p s : str) (l : list str) :
  path_parts p = s :: l ->
  exists k rest,
    p = repeat c_slash k ++ s ++ rest /\
    (rest = [] \/ exists r, rest = c_slash :: r).
Proof.
  induction p as [|c t IH]; [discriminate|].
  rewrite path_parts_cons. destruct (c =? c_slash) eqn:Hc.
  - apply N.eqb_eq in Hc. subst c. intros H.
    destruct (IH H) as (k & rest & Ht & Hrest).
    exists (S k), rest. split; [|exact Hrest]. simpl. now rewrite <- Ht.
  - destruct (split_slash t) as [|seg segs] eqn:Hs.
    + now destruct (split_slash_not_nil t).
    + intros H. injection H as <- _.
      destruct (split_slash_hd t seg segs Hs) as (rest & Ht & Hrest).
      exists 0%nat, rest. split; [|exact Hrest]. simpl. now rewrite <- Ht.
Qed.

Lemma path_parts_nil_iff (p : str) :
  path_parts p = [] <-> Forall (fun c => c = c_slash) p.
Proof.
  induction p as [|c t IH]; [split; [constructor | reflexivity]|].
  rewrite path_parts_cons. destruct (c =? c_slash) eqn:Hc.
  - apply N.eqb_eq in Hc. rewrite IH. split.
    + intros H. now constructor.
    + intros H. now inversion H.
  - apply N.eqb_neq in Hc. split.
    + destruct (split_slash t); discriminate.
    + intros H. inversion H. contradiction.
Qed.

(** X9: a URL that parses reaches the fetch exactly when its host ends
    with [powerdms.com] and its path holds a character other than a
    slash. *)
Theorem resolve_site_succeeds_iff (E : Env) (url : str) (p : ParseResult) :
  urlparse E url = inr p ->
  (exists site_name json_api_url,
     resolve_site E url = inr (site_name, json_api_url)) <->
  endswith (netloc p) (lit "powerdms.com") = true /\
  exists c, In c (path p) /\ c <> c_slash.
Proof.
  intros Hp. split.
  - intros (site & api & Hres).
    destruct (resolve_site_inv _ _ _ _ Hres) as (p' & Hp' & Hd & Hn & _).
    rewrite Hp in Hp'. injection Hp' as <-. split; [exact Hd|].
    destruct (path_parts (path p)) as [|s l] eqn:Hparts; [discriminate|].
    injection Hn as ->.
    destruct (path_parts_In (path p) site) as [Hslash Hne];
      [rewrite Hparts; now left|].
    destruct (path_parts_first _ _ _ Hparts) as (k & rest & Hpath & _).
    destruct site as [|c site']; [contradiction|].
    exists c. split.
    + rewrite Hpath. apply in_or_app. right. now left.
    + intros ->. apply Hslash. now left.
  - intros (Hd & c & Hin & Hc). unfold resolve_site. rewrite Hp, Hd. simpl.
    destruct (path_parts (path p)) as [|s l] eqn:Hparts.
    + exfalso. apply path_parts_nil_iff in Hparts.
      apply Hc. exact (proj1 (Forall_forall _ _) Hparts c Hin).
    + simpl. now exists s, (api_url (netloc p) s).
Qed.

Lemma resolve_site_succeeds_iff_witness :
  urlparse Sample.world Sample.url = inr Sample.parsed /\
  ((exists site_name json_api_url,
      resolve_site Sample.world Sample.url = inr (site_name, json_api_url)) <->
   endswith (netloc Sample.parsed) (lit "powerdms.com") = true /\
   exists c, In c (path Sample.parsed) /\ c <> c_slash).
Proof.
  split; [reflexivity|].
  apply (resolve_site_succeeds_iff Sample.world Sample.url Sample.parsed).
  reflexivity.
Defined.

(** X10: in a run that reaches the fetch, the site name is the first
    non-empty segment of the path (what follows the leading slashes, up to
    the next slash); it is not empty and holds no slash, and the endpoint
    is [https://{netloc}/{site_name}/documents]. *)
Theorem resolved_site_is_first_segment
        (E : Env) (url site_name json_api_url : str) :
  resolve_site E url = inr (site_name, json_api_url) ->
  exists p k rest,
    urlparse E url = inr p /\
    path p = repeat c_slash k ++ site_name ++ rest /\
    (rest = [] \/ exists r, rest = c_slash :: r) /\
    site_name <> [] /\
    ~ In c_slash site_name /\
    json_api_url =
    lit "https://" ++ netloc p ++ lit "/" ++ site_name ++ lit "/documents".
Proof.
  intros Hres.
  destruct (resolve_site_inv _ _ _ _ Hres) as (p & Hp & _ & Hn & Hapi).
  destruct (resolved_site_name _ _ _ _ Hres) as [Hslash Hne].
  destruct (path_parts (path p)) as [|s l] eqn:Hparts; [discriminate|].
  injection Hn as ->.
  destruct (path_parts_first _ _ _ Hparts) as (k & rest & Hpath & Hrest).
  exists p, k, rest. repeat split; assumption.
Qed.

Lemma resolved_site_is_first_segment_witness :
  resolve_site Sample.world Sample.url =
    inr (Sample.site_name, Sample.json_api_url) /\
  exists p k rest,
    urlparse Sample.world Sample.url = inr p /\
    path p = repeat c_slash k ++ Sample.site_name ++ rest /\
    (rest = [] \/ exists r, rest = c_slash :: r) /\
    Sample.site_name <> [] /\
    ~ In c_slash Sample.site_name /\
    Sample.json_api_url =
    lit "https://" ++ netloc p ++ lit "/" ++ Sample.site_name ++ lit "/documents".
Proof.
  split; [reflexivity|].
  apply (resolved_site_is_first_segment Sample.world Sample.url).
  reflexivity.
Defined.

Lemma split_slash_app (s r : str) :
  ~ In c_slash s ->
  split_slash (s ++ c_slash :: r) = s :: split_slash r.
Proof.
  induction s as [|a s IH]; intros Hs; simpl; [reflexivity|].
  destruct (a =? c_slash) eqn:Ha.
  - apply N.eqb_eq in Ha. subst a. exfalso. apply Hs. now left.
  - rewrite IH; [reflexivity|]. intros H. apply Hs. now right.
Qed.

(** X11: the endpoint the run builds names the same site: given back as
    the URL, it resolves to the same site name and to itself. *)
Theorem endpoint_resolves_to_itself (E : Env) (host site_name : str) :
  site_name <> [] ->
  ~ In c_slash site_name ->
  endswith host (lit "powerdms.com") = true ->
  urlparse E (api_url host site_name) =
    inr {| netloc := host; path := lit "/" ++ site_name ++ lit "/documents" |} ->
  resolve_site E (api_url host site_name) =
  inr (site_name, api_url host site_name).
Proof.
  intros Hne Hslash Hhost Hp. unfold resolve_site. rewrite Hp.
  cbn [netloc path]. rewrite Hhost.
  assert (Hparts : path_parts (lit "/" ++ site_name ++ lit "/documents") =
                   [site_name; lit "documents"]).
  { unfold path_parts.
    change (lit "/" ++ site_name ++ lit "/documents")
      with (c_slash :: (site_name ++ c_slash :: lit "documents")).
    cbn [split_slash]. rewrite N.eqb_refl, (split_slash_app _ _ Hslash).
    destruct site_name; [contradiction | reflexivity]. }
  rewrite Hparts. reflexivity.
Qed.

Lemma endpoint_resolves_to_itself_witness :
  Sample.site_name <> [] /\
  ~ In c_slash Sample.site_name /\
  endswith (lit "public.powerdms.com") (lit "powerdms.com") = true /\
  urlparse Cases.endpoint_world (api_url (lit "public.powerdms.com") Sample.site_name) =
    inr {| netloc := lit "public.powerdms.com";
           path := lit "/" ++ Sample.site_name ++ lit "/documents" |} /\
  resolve_site Cases.endpoint_world
    (api_url (lit "public.powerdms.com") Sample.site_name) =
  inr (Sample.site_name, api_url (lit "public.powerdms.com") Sample.site_name).
Proof.
  assert (Hne : Sample.site_name <> []) by discriminate.
  assert (Hslash : ~ In c_slash Sample.site_name)
    by (vm_compute; intuition discriminate).
  split; [exact Hne | split; [exact Hslash | split; [reflexivity | split; [reflexivity|]]]].
  apply (endpoint_resolves_to_itself Cases.endpoint_world
           (lit "public.powerdms.com") Sample.site_name Hne Hslash);
    reflexivity.
Defined.

Lemma startswith_app (p r : str) : startswith (p ++ r) p = true.
Proof. induction p as [|c p IH]; simpl; [reflexivity|]. now rewrite N.eqb_refl. Qed.

Lemma endswith_app (h s : str) : endswith (h ++ s) s = true.
Proof. unfold endswith. rewrite rev_app_distr. apply startswith_app. Qed.

(** X12: the host test is a plain suffix test, with no dot before the
    suffix: whatever precedes [powerdms.com] in the host, the URL is
    accepted and the endpoint is built on that host. *)
Theorem host_suffix_has_no_boundary (E : Env) (url h pth : str) (c : char) :
  urlparse E url = inr {| netloc := h ++ lit "powerdms.com"; path := pth |} ->
  In c pth ->
  c <> c_slash ->
  exists site_name,
    resolve_site E url =
    inr (site_name,
         lit "https://" ++ (h ++ lit "powerdms.com") ++ lit "/" ++ site_name ++
         lit "/documents").
Proof.
  intros Hp Hin Hc. unfold resolve_site. rewrite Hp. cbn [netloc path].
  rewrite endswith_app. simpl negb. simpl orb.
  destruct (path_parts pth) as [|s l] eqn:Hparts.
  - exfalso. apply path_parts_nil_iff in Hparts.
    apply Hc. exact (proj1 (Forall_forall _ _) Hparts c Hin).
  - simpl. now exists s.
Qed.

Lemma host_suffix_has_no_boundary_witness :
  urlparse Sample.world Sample.url =
    inr {| netloc := lit "public." ++ lit "powerdms.com";
           path := lit "/MassStatePolice/tree/147101" |} /\
  In 77 (lit "/MassStatePolice/tree/147101") /\
  77 <> c_slash /\
  exists site_name,
    resolve_site Sample.world Sample.url =
    inr (site_name,
         lit "https://" ++ (lit "public." ++ lit "powerdms.com") ++ lit "/" ++
         site_name ++ lit "/documents").
Proof.
  assert (Hin : In 77 (lit "/MassStatePolice/tree/147101")) by (right; left; reflexivity).
  assert (Hc : 77 <> c_slash) by discriminate.
  split; [reflexivity | split; [exact Hin | split; [exact Hc|]]].
  apply (host_suffix_has_no_boundary Sample.world Sample.url (lit "public.")
           (lit "/MassStatePolice/tree/147101") 77); [reflexivity | exact Hin | exact Hc].
Defined.

(** ** The fetch and the decoded body *)

Lemma decode_error_caught_as_request_error_witness :
  resolve_site Cases.page_world Sample.url =
    inr (Sample.site_name, Sample.json_api_url) /\
  session_get Cases.page_world Sample.json_api_url = inr Cases.page_response /\
  raise_for_status Cases.page_response = None /\
  json Cases.page_response = inl Cases.request_decode_error /\
  isinstance_HTTPError Cases.request_decode_error = false /\
  isinstance_RequestException Cases.request_decode_error = true /\
  scrape_powerdms_site Cases.page_world Sample.url =
  {| status := RequestError Cases.request_decode_error; files := [] |}.
Proof.
  do 6 (split; [reflexivity|]).
  apply (decode_error_caught_as_request_error Cases.page_world Sample.url
           Sample.site_name Sample.json_api_url Cases.page_response
           Cases.request_decode_error); reflexivity.
Defined.

(** X14: when [raise_for_status()] raises an [HTTPError], the run ends at
    the HTTP error message with the status code of the response and the
    endpoint; the body is neither decoded nor saved, and no file is
    written. *)
Theorem http_error_reports_status
        (E : Env) (url site_name json_api_url : str) (r : Response)
        (e : lib_exn) (code : Z) :
  resolve_site E url = inr (site_name, json_api_url) ->
  session_get E json_api_url = inr r ->
  raise_for_status r = Some e ->
  isinstance_HTTPError e = true ->
  response_status_code e = Some code ->
  scrape_powerdms_site E url =
  {| status := HttpError code json_api_url; files := [] |}.
Proof.
  intros Hres Hget Hraise Hh Hcode.
  rewrite (scrape_after_resolve _ _ _ _ Hres).
  unfold fetch, fetch_handler. now rewrite Hget, Hraise, Hh, Hcode.
Qed.

Lemma http_error_reports_status_witness :
  resolve_site Cases.not_found_world Sample.url =
    inr (Sample.site_name, Sample.json_api_url) /\
  session_get Cases.not_found_world Sample.json_api_url =
    inr Cases.not_found_response /\
  raise_for_status Cases.not_found_response = Some Cases.not_found /\
  isinstance_HTTPError Cases.not_found = true /\
  response_status_code Cases.not_found = Some 404%Z /\
  scrape_powerdms_site Cases.not_found_world Sample.url =
  {| status := HttpError 404 Sample.json_api_url; files := [] |}.
Proof.
  do 5 (split; [reflexivity|]).
  apply (http_error_reports_status Cases.not_found_world Sample.url
           Sample.site_name Sample.json_api_url Cases.not_found_response
           Cases.not_found 404%Z); reflexivity.
Defined.

(** A run whose fetch returned a decoded body. *)
Lemma scrape_after_fetch (E : Env) (url site_name json_api_url : str)
      (r : Response) (data : jvalue) :
  resolve_site E url = inr (site_name, json_api_url) ->
  session_get E json_api_url = inr r ->
  raise_for_status r = None ->
  json r = inr data ->
  scrape_powerdms_site E url = write_artifacts E site_name data.
Proof.
  intros Hres Hget Hok Hjson.
  rewrite (scrape_after_resolve _ _ _ _ Hres).
  unfold fetch. now rewrite Hget, Hok, Hjson.
Qed.

(** X15: a decoded object with no [data] entry, or with one that is no
    list (null, a string, an object), ends the run at the no-data-list
    message; the only file is [debug.json], holding the whole decoded
    body. *)
Theorem no_data_list_writes_debug_json
        (E : Env) (url site_name json_api_url : str) (r : Response)
        (fields : list (str * jvalue)) :
  resolve_site E url = inr (site_name, json_api_url) ->
  session_get E json_api_url = inr r ->
  raise_for_status r = None ->
  json r = inr (JObj fields) ->
  (lookup (lit "data") fields = None \/
   exists v, lookup (lit "data") fields = Some v /\ is_list v = false) ->
  scrape_powerdms_site E url =
  {| status := NoDataList;
     files := [(lit "debug.json", JsonDump (JObj fields))] |}.
Proof.
  intros Hres Hget Hok Hjson Hdata.
  rewrite (scrape_after_fetch _ _ _ _ _ _ Hres Hget Hok Hjson).
  unfold write_artifacts. destruct Hdata as [-> | (v & -> & Hv)]; [reflexivity|].
  destruct v; try reflexivity. discriminate Hv.
Qed.

Lemma no_data_list_writes_debug_json_witness :
  resolve_site Cases.message_world Sample.url =
    inr (Sample.site_name, Sample.json_api_url) /\
  session_get Cases.message_world Sample.json_api_url =
    inr Cases.message_response /\
  raise_for_status Cases.message_response = None /\
  json Cases.message_response = inr (JObj Cases.message_fields) /\
  (lookup (lit "data") Cases.message_fields = None \/
   exists v, lookup (lit "data") Cases.message_fields = Some v /\ is_list v = false) /\
  scrape_powerdms_site Cases.message_world Sample.url =
  {| status := NoDataList;
     files := [(lit "debug.json", JsonDump (JObj Cases.message_fields))] |}.
Proof.
  do 4 (split; [reflexivity|]). split; [left; reflexivity|].
  apply (no_data_list_writes_debug_json Cases.message_world Sample.url
           Sample.site_name Sample.json_api_url Cases.message_response
           Cases.message_fields); try reflexivity.
  left; reflexivity.
Defined.

(** X16: a body that decodes to anything but an object (a list, a string,
    a number, null) makes [data.get] raise outside every [try]: the run
    ends with an uncaught [AttributeError] and writes no file, not even
    [debug.json]. *)
Theorem non_object_body_is_uncaught
        (E : Env) (url site_name json_api_url : str) (r : Response)
        (data : jvalue) :
  resolve_site E url = inr (site_name, json_api_url) ->
  session_get E json_api_url = inr r ->
  raise_for_status r = None ->
  json r = inr data ->
  is_dict data = false ->
  scrape_powerdms_site E url =
  {| status := Uncaught AttributeError; files := [] |}.
Proof.
  intros Hres Hget Hok Hjson Hdict.
  rewrite (scrape_after_fetch _ _ _ _ _ _ Hres Hget Hok Hjson).
  destruct data; try reflexivity. discriminate Hdict.
Qed.

Lemma non_object_body_is_uncaught_witness :
  resolve_site Cases.list_world Sample.url =
    inr (Sample.site_name, Sample.json_api_url) /\
  session_get Cases.list_world Sample.json_api_url = inr Cases.list_response /\
  raise_for_status Cases.list_response = None /\
  json Cases.list_response = inr (JArr []) /\
  is_dict (JArr []) = false /\
  scrape_powerdms_site Cases.list_world Sample.url =
  {| status := Uncaught AttributeError; files := [] |}.
Proof.
  do 5 (split; [reflexivity|]).
  apply (non_object_body_is_uncaught Cases.list_world Sample.url
           Sample.site_name Sample.json_api_url Cases.list_response (JArr []));
    reflexivity.
Defined.

(** ** The two artifacts *)

Lemma encodable_app (a b : str) :
  encodable (a ++ b) = encodable a && encodable b.
Proof. apply forallb_app. Qed.

Lemma encodable_Forall (t : str) :
  encodable t = true <-> Forall (fun c => is_surrogate c = false) t.
Proof.
  unfold encodable. rewrite forallb_forall, Forall_forall.
  split; intros H c Hc; specialize (H c Hc);
    now destruct (is_surrogate c).
Qed.

Lemma sub_spaces_from_Forall (P : char -> Prop) (b : bool) (t : str) :
  P c_underscore -> Forall P t -> Forall P (sub_spaces_from b t).
Proof.
  intros Hu H. revert b. induction H as [|c t Hc _ IH]; intros b; simpl;
    [constructor|].
  destruct (is_space c); [destruct b|]; try constructor; auto.
Qed.

(** The sanitized name of a text that can be encoded can be encoded. *)
Lemma safe_filename_encodable (n : str) :
  encodable n = true -> encodable (safe_filename n) = true.
Proof.
  rewrite !encodable_Forall. intros H. rewrite safe_filename_unfold.
  apply Forall_firstn.
  assert (Ht : Forall (fun c => is_surrogate c = false)
                      (sub_spaces (sub_reserved n))).
  { apply sub_spaces_from_Forall; [reflexivity|].
    unfold sub_reserved. apply Forall_map. revert H. apply Forall_impl.
    intros c Hc. now destruct (is_reserved c). }
  destruct (endswith _ _); [apply Forall_drop_last|]; exact Ht.
Qed.

Lemma path_join_encodable (a b : str) :
  encodable a = true -> encodable b = true -> encodable (path_join a b) = true.
Proof.
  intros Ha Hb. unfold path_join.
  destruct (startswith b (lit "/")); [exact Hb|].
  destruct (is_empty a || endswith a (lit "/"));
    rewrite ?encodable_app, Ha, Hb; reflexivity.
Qed.

(** The writes of the second loop on a record whose strings can be
    encoded can all be encoded. *)
Lemma entry_of_encodable (dir : str) (d : DocumentRecord) :
  encodable dir = true ->
  record_encodable d = true ->
  forallb encodable (List.map render (entry_of dir d)) = true.
Proof.
  intros Hdir Hd. unfold record_encodable in Hd.
  apply andb_true_iff in Hd. destruct Hd as [Hn Hu].
  assert (Hp : encodable (path_join dir (safe_filename (name_of d) ++ lit ".pdf")) = true).
  { apply path_join_encodable; [exact Hdir|].
    now rewrite encodable_app, (safe_filename_encodable _ Hn). }
  unfold entry_of. destruct (contains sentinel_url (url_of d));
    cbn [List.map forallb render]; rewrite !encodable_app, ?Hn, ?Hu, ?Hp;
    reflexivity.
Qed.

Lemma catalog_writes_encodable (dir : str) (cat : list DocumentRecord) :
  encodable dir = true ->
  forallb record_encodable cat = true ->
  forallb encodable (List.map render (flat_map (entry_of dir) cat)) = true.
Proof.
  intros Hdir. induction cat as [|d cat IH]; [reflexivity|].
  cbn [forallb flat_map]. rewrite andb_true_iff. intros [Hd Hcat].
  rewrite map_app, forallb_app, (entry_of_encodable dir d Hdir Hd), (IH Hcat).
  reflexivity.
Qed.

Lemma write_all_ok (chunks : list str) :
  forallb encodable chunks = true ->
  write_all chunks = (concat chunks, None).
Proof.
  induction chunks as [|c chunks IH]; [reflexivity|].
  cbn [forallb]. rewrite andb_true_iff. intros [Hc Hrest].
  cbn [write_all]. now rewrite Hc, (IH Hrest).
Qed.

Lemma script_header_writes_concat (dir : str) :
  concat (script_header_writes dir) = script_header dir.
Proof.
  unfold script_header_writes, script_header. cbn [concat].
  now rewrite app_nil_r, <- !app_assoc.
Qed.

Lemma script_header_writes_encodable (dir : str) :
  encodable dir = true ->
  forallb encodable (script_header_writes dir) = true.
Proof.
  intros Hdir. unfold script_header_writes. cbn [forallb].
  rewrite !encodable_app, Hdir. reflexivity.
Qed.

Lemma download_dir_encodable (site_name : str) :
  encodable site_name = true -> encodable (download_dir site_name) = true.
Proof. intros H. unfold download_dir. now rewrite encodable_app, H. Qed.

(** When every write can be encoded the script is the header and then the
    writes of the loop. *)
Lemma script_written (dir : str) (items : list script_item) :
  encodable dir = true ->
  forallb encodable (List.map render items) = true ->
  write_all (script_header_writes dir ++ List.map render items) =
  (script_text dir items, None).
Proof.
  intros Hdir Hitems. rewrite write_all_ok.
  - now rewrite concat_app, script_header_writes_concat.
  - now rewrite forallb_app, (script_header_writes_encodable dir Hdir), Hitems.
Qed.

Lemma fs_length_app (a b : str) :
  fs_length (a ++ b) = fs_length a + fs_length b.
Proof.
  unfold fs_length. induction a as [|c a IH]; simpl; [reflexivity|].
  rewrite IH. lia.
Qed.

(** The name of the script is shorter than that of the index and made of
    the same site name: where the index can be opened, so can the
    script. *)
Lemma script_opens_where_index_does (site_name : str) :
  open_w (csv_filename site_name) = None ->
  open_w (script_filename site_name) = None.
Proof.
  unfold open_w, csv_filename, script_filename.
  rewrite !existsb_app, !fs_length_app.
  change (existsb (fun c => is_surrogate c && negb (is_escaped_byte c))
                  (lit "_documents.csv")) with false.
  change (existsb (fun c => is_surrogate c && negb (is_escaped_byte c))
                  (lit "download_")) with false.
  change (existsb (fun c => is_surrogate c && negb (is_escaped_byte c))
                  (lit ".sh")) with false.
  change (existsb (N.eqb 0) (lit "_documents.csv")) with false.
  change (existsb (N.eqb 0) (lit "download_")) with false.
  change (existsb (N.eqb 0) (lit ".sh")) with false.
  change (fs_length (lit "_documents.csv")) with 14.
  change (fs_length (lit "download_")) with 9.
  change (fs_length (lit ".sh")) with 3.
  rewrite !orb_false_r. cbn [orb].
  destruct (existsb (fun c => is_surrogate c && negb (is_escaped_byte c)) site_name);
    [discriminate|].
  destruct (existsb _ site_name); [discriminate|].
  unfold NAME_MAX.
  destruct (255 <? fs_length site_name + 14) eqn:Hcsv; [discriminate|].
  intros _. apply N.ltb_ge in Hcsv.
  destruct (255 <? 9 + (fs_length site_name + 3)) eqn:Hsh; [|reflexivity].
  apply N.ltb_lt in Hsh. lia.
Qed.

(** On a catalog of records that can be encoded, for a site name that can
    be encoded and is short enough for the index to be opened, both loops
    run to their end and the run leaves exactly the index and the
    script. *)
Lemma write_artifacts_catalog (E : Env) (site_name : str)
      (fields : list (str * jvalue)) (d : DocumentRecord) (cat : list DocumentRecord) :
  lookup (lit "data") fields = Some (JArr (List.map doc_json (d :: cat))) ->
  open_w (csv_filename site_name) = None ->
  encodable site_name = true ->
  forallb record_encodable (d :: cat) = true ->
  write_artifacts E site_name (JObj fields) =
  {| status := AllDone;
     files :=
       [(csv_filename site_name,
         CsvRows (csv_header :: fst (csv_rows (List.map doc_json (d :: cat)))));
        (script_filename site_name,
         Text (script_text (download_dir site_name)
                 (fst (script_items E (download_dir site_name)
                         (List.map doc_json (d :: cat))))))] |}.
Proof.
  intros Hl Hopen Hsite Hcat. unfold write_artifacts. rewrite Hl.
  cbn [List.map is_empty]. change (doc_json d :: List.map doc_json cat)
    with (List.map doc_json (d :: cat)).
  rewrite Hopen, (script_opens_where_index_does _ Hopen).
  rewrite (csv_rows_catalog _ Hcat), script_items_catalog.
  rewrite script_written;
    [reflexivity | now apply download_dir_encodable |].
  apply catalog_writes_encodable; [now apply download_dir_encodable | exact Hcat].
Qed.

(** X17: take a URL and a site name with no lone surrogate, a site name
    short enough for the index to be opened, and a decoded object whose
    [data] is a non-empty list of records whose strings hold no lone
    surrogate.  The run then ends with ALL DONE and leaves exactly two
    files: [{site_name}_documents.csv], with the header and then one row
    per record in catalog order, the sentinels standing for what is
    absent, and [download_{site_name}.sh], with the header and the writes
    of the second loop. *)
Theorem run_on_records
        (E : Env) (url site_name json_api_url : str) (r : Response)
        (fields : list (str * jvalue)) (d : DocumentRecord)
        (cat : list DocumentRecord) :
  resolve_site E url = inr (site_name, json_api_url) ->
  session_get E json_api_url = inr r ->
  raise_for_status r = None ->
  json r = inr (JObj fields) ->
  lookup (lit "data") fields = Some (JArr (List.map doc_json (d :: cat))) ->
  encodable url = true ->
  encodable site_name = true ->
  open_w (site_name ++ lit "_documents.csv") = None ->
  forallb record_encodable (d :: cat) = true ->
  scrape_powerdms_site E url =
  {| status := AllDone;
     files :=
       [(site_name ++ lit "_documents.csv",
         CsvRows ([JStr (lit "name"); JStr (lit "url")] ::
                  List.map (fun d => [JStr (name_of d); JStr (url_of d)]) (d :: cat)));
        (lit "download_" ++ site_name ++ lit ".sh",
         Text (script_header (lit "downloaded_" ++ site_name) ++
               concat (List.map render
                         (fst (script_items E (lit "downloaded_" ++ site_name)
                                 (List.map doc_json (d :: cat)))))))] |}.
Proof.
  intros Hres Hget Hok Hjson Hdata _ Hsite Hopen Hcat.
  rewrite (scrape_after_fetch _ _ _ _ _ _ Hres Hget Hok Hjson).
  rewrite (write_artifacts_catalog E site_name fields d cat Hdata Hopen Hsite Hcat).
  rewrite (csv_rows_catalog _ Hcat). reflexivity.
Qed.

Lemma run_on_records_witness :
  resolve_site Sample.world Sample.url =
    inr (Sample.site_name, Sample.json_api_url) /\
  session_get Sample.world Sample.json_api_url =
    inr (Sample.ok [] (inr (Sample.catalog_json Sample.catalog))) /\
  lookup (lit "data") [(lit "data", JArr (List.map doc_json Sample.catalog))] =
    Some (JArr (List.map doc_json Sample.catalog)) /\
  encodable Sample.url = true /\
  encodable Sample.site_name = true /\
  open_w (Sample.site_name ++ lit "_documents.csv") = None /\
  forallb record_encodable Sample.catalog = true /\
  scrape_powerdms_site Sample.world Sample.url =
  {| status := AllDone;
     files :=
       [(Sample.site_name ++ lit "_documents.csv",
         CsvRows ([JStr (lit "name"); JStr (lit "url")] ::
                  List.map (fun d => [JStr (name_of d); JStr (url_of d)])
                           Sample.catalog));
        (lit "download_" ++ Sample.site_name ++ lit ".sh",
         Text (script_header (lit "downloaded_" ++ Sample.site_name) ++
               concat (List.map render
                         (fst (script_items Sample.world
                                 (lit "downloaded_" ++ Sample.site_name)
                                 (List.map doc_json Sample.catalog))))))] |}.
Proof.
  do 7 (split; [reflexivity|]).
  apply (run_on_records Sample.world Sample.url Sample.site_name
           Sample.json_api_url
           (Sample.ok [] (inr (Sample.catalog_json Sample.catalog)))
           [(lit "data", JArr (List.map doc_json Sample.catalog))]
           (Sample.doc "A/B" "https://x/a.pdf")
           [ {| name := Some (lit "C"); publicUrl := None |} ]);
    reflexivity.
Defined.


(** ** Documents that are no records *)

Lemma csv_rows_app (pre : list DocumentRecord) (rest : list jvalue) :
  forallb record_encodable pre = true ->
  csv_rows (List.map doc_json pre ++ rest) =
  (List.map row_of pre ++ fst (csv_rows rest), snd (csv_rows rest)).
Proof.
  induction pre as [|d pre IH]; [simpl; now destruct (csv_rows rest)|].
  cbn [forallb]. rewrite andb_true_iff. intros [Hd Hpre].
  cbn [List.map app csv_rows]. rewrite csv_row_doc, Hd, (IH Hpre). reflexivity.
Qed.

Lemma script_items_app (E : Env) (dir : str) (pre : list DocumentRecord)
      (rest : list jvalue) :
  script_items E dir (List.map doc_json pre ++ rest) =
  (flat_map (entry_of dir) pre ++ fst (script_items E dir rest),
   snd (script_items E dir rest)).
Proof.
  induction pre as [|d pre IH]; [simpl; now destruct (script_items E dir rest)|].
  cbn [List.map app script_items flat_map].
  rewrite script_entry_doc, IH. now rewrite app_assoc.
Qed.

(** A first loop that runs to its end has written a row for every
    document. *)
Lemma csv_rows_complete (documents : list jvalue) :
  snd (csv_rows documents) = None ->
  length (fst (csv_rows documents)) = length documents.
Proof.
  induction documents as [|doc rest IH]; [reflexivity|]. cbn [csv_rows].
  destruct (csv_row doc) as [e|row]; [discriminate|].
  destruct (csv_rows rest) as [rows err]. cbn [fst snd] in *.
  intros H. simpl. now rewrite (IH H).
Qed.

(** It could encode the strings of every record it met. *)
Lemma csv_rows_complete_prefix (pre : list DocumentRecord) (rest : list jvalue) :
  snd (csv_rows (List.map doc_json pre ++ rest)) = None ->
  forallb record_encodable pre = true.
Proof.
  induction pre as [|d pre IH]; [reflexivity|].
  cbn [List.map app csv_rows forallb]. rewrite csv_row_doc.
  destruct (record_encodable d); [|discriminate].
  destruct (csv_rows (List.map doc_json pre ++ rest)) as [rows err].
  cbn [fst snd] in *. exact IH.
Qed.

(** X19: take a URL with no lone surrogate and a site name short enough
    for the index to be opened.  A document that is no object (a string,
    a number, null, a list), after records whose strings hold no lone
    surrogate, stops the run inside the first loop with an uncaught
    [AttributeError].  The index is left behind with the header and the
    rows of the records before that document; the script is never
    opened. *)
Theorem stray_document_leaves_partial_index
        (E : Env) (url site_name json_api_url : str) (r : Response)
        (fields : list (str * jvalue)) (pre : list DocumentRecord)
        (bad : jvalue) (rest : list jvalue) :
  resolve_site E url = inr (site_name, json_api_url) ->
  session_get E json_api_url = inr r ->
  raise_for_status r = None ->
  json r = inr (JObj fields) ->
  lookup (lit "data") fields = Some (JArr (List.map doc_json pre ++ bad :: rest)) ->
  is_dict bad = false ->
  encodable url = true ->
  open_w (site_name ++ lit "_documents.csv") = None ->
  forallb record_encodable pre = true ->
  scrape_powerdms_site E url =
  {| status := Uncaught AttributeError;
     files :=
       [(site_name ++ lit "_documents.csv",
         CsvRows ([JStr (lit "name"); JStr (lit "url")] ::
                  List.map (fun d => [JStr (name_of d); JStr (url_of d)]) pre))] |}.
Proof.
  intros Hres Hget Hok Hjson Hdata Hbad _ Hopen Hpre.
  rewrite (scrape_after_fetch _ _ _ _ _ _ Hres Hget Hok Hjson).
  unfold write_artifacts. rewrite Hdata.
  assert (Hne : is_empty (List.map doc_json pre ++ bad :: rest) = false)
    by now destruct pre.
  rewrite Hne. fold (csv_filename site_name) in Hopen. rewrite Hopen.
  rewrite (csv_rows_app _ _ Hpre).
  assert (Hrows : csv_rows (bad :: rest) = ([], Some AttributeError))
    by (destruct bad; try reflexivity; discriminate Hbad).
  rewrite Hrows. cbn [fst snd]. now rewrite app_nil_r.
Qed.

Lemma stray_document_leaves_partial_index_witness :
  resolve_site Cases.stray_world Sample.url =
    inr (Sample.site_name, Sample.json_api_url) /\
  is_dict (JStr (lit "oops")) = false /\
  encodable Sample.url = true /\
  open_w (Sample.site_name ++ lit "_documents.csv") = None /\
  forallb record_encodable [Sample.doc "A/B" "https://x/a.pdf"] = true /\
  scrape_powerdms_site Cases.stray_world Sample.url =
  {| status := Uncaught AttributeError;
     files :=
       [(lit "MassStatePolice_documents.csv",
         CsvRows [[JStr (lit "name"); JStr (lit "url")];
                  [JStr (lit "A/B"); JStr (lit "https://x/a.pdf")]])] |}.
Proof.
  do 5 (split; [reflexivity|]).
  apply (stray_document_leaves_partial_index Cases.stray_world Sample.url
           Sample.site_name Sample.json_api_url Cases.stray_response
           [(lit "data", JArr Cases.stray_documents)]
           [Sample.doc "A/B" "https://x/a.pdf"] (JStr (lit "oops"))
           (List.map doc_json [Sample.doc "D" "https://x/d.pdf"])); reflexivity.
Defined.

(** X20: take a URL and a site name with no lone surrogate, the site name
    short enough for the index to be opened, and documents on which the
    first loop runs to its end.  A document whose [publicUrl] is null,
    after records, then stops the second loop with an uncaught
    [TypeError].  The index is complete, one row per document; the script
    is left behind with the header and the entries of the records before
    that document only. *)
Theorem null_url_leaves_partial_script
        (E : Env) (url site_name json_api_url : str) (r : Response)
        (fields bad : list (str * jvalue)) (pre : list DocumentRecord)
        (rest : list jvalue) :
  resolve_site E url = inr (site_name, json_api_url) ->
  session_get E json_api_url = inr r ->
  raise_for_status r = None ->
  json r = inr (JObj fields) ->
  lookup (lit "data") fields =
    Some (JArr (List.map doc_json pre ++ JObj bad :: rest)) ->
  lookup (lit "publicUrl") bad = Some JNull ->
  snd (csv_rows (List.map doc_json pre ++ JObj bad :: rest)) = None ->
  encodable url = true ->
  encodable site_name = true ->
  open_w (site_name ++ lit "_documents.csv") = None ->
  length (fst (csv_rows (List.map doc_json pre ++ JObj bad :: rest))) =
  (length pre + 1 + length rest)%nat /\
  scrape_powerdms_site E url =
  {| status := Uncaught TypeError;
     files :=
       [(site_name ++ lit "_documents.csv",
         CsvRows ([JStr (lit "name"); JStr (lit "url")] ::
                  fst (csv_rows (List.map doc_json pre ++ JObj bad :: rest))));
        (lit "download_" ++ site_name ++ lit ".sh",
         Text (script_header (lit "downloaded_" ++ site_name) ++
               concat (List.map render
                         (fst (script_items E (lit "downloaded_" ++ site_name)
                                 (List.map doc_json pre))))))] |}.
Proof.
  intros Hres Hget Hok Hjson Hdata Hnull Hcsv _ Hsite Hopen.
  pose proof (csv_rows_complete _ Hcsv) as Hlen.
  pose proof (csv_rows_complete_prefix _ _ Hcsv) as Hpre.
  split.
  { rewrite Hlen, length_app, length_map. simpl. lia. }
  rewrite (scrape_after_fetch _ _ _ _ _ _ Hres Hget Hok Hjson).
  unfold write_artifacts. rewrite Hdata.
  assert (Hne : is_empty (List.map doc_json pre ++ JObj bad :: rest) = false)
    by now destruct pre.
  fold (csv_filename site_name) in Hopen.
  rewrite Hne, Hopen, (script_opens_where_index_does _ Hopen).
  destruct (csv_rows (List.map doc_json pre ++ JObj bad :: rest)) as [rows err].
  cbn [fst snd] in *. subst err.
  rewrite script_items_app.
  assert (Hentry : script_items E (download_dir site_name) (JObj bad :: rest) =
                   ([], Some TypeError)).
  { cbn [script_items]. unfold script_entry. simpl. now rewrite Hnull. }
  rewrite Hentry. cbn [fst snd]. rewrite app_nil_r.
  rewrite script_written;
    [| now apply download_dir_encodable
     | apply catalog_writes_encodable;
       [now apply download_dir_encodable | exact Hpre]].
  rewrite script_items_catalog. reflexivity.
Qed.

Lemma null_url_leaves_partial_script_witness :
  resolve_site Cases.null_url_world Sample.url =
    inr (Sample.site_name, Sample.json_api_url) /\
  lookup (lit "publicUrl") Cases.null_url_fields = Some JNull /\
  snd (csv_rows Cases.null_url_documents) = None /\
  encodable Sample.url = true /\
  encodable Sample.site_name = true /\
  open_w (Sample.site_name ++ lit "_documents.csv") = None /\
  length (fst (csv_rows Cases.null_url_documents)) = 3%nat /\
  scrape_powerdms_site Cases.null_url_world Sample.url =
  {| status := Uncaught TypeError;
     files :=
       [(lit "MassStatePolice_documents.csv",
         CsvRows ([JStr (lit "name"); JStr (lit "url")] ::
                  fst (csv_rows Cases.null_url_documents)));
        (lit "download_MassStatePolice.sh",
         Text (script_header (lit "downloaded_MassStatePolice") ++
               concat (List.map render
                         [Echo (lit "A/B");
                          Wget (lit "downloaded_MassStatePolice/A_B.pdf")
                               (lit "https://x/a.pdf")])))] |}.
Proof.
  do 6 (split; [reflexivity|]).
  apply (null_url_leaves_partial_script Cases.null_url_world Sample.url
           Sample.site_name Sample.json_api_url Cases.null_url_response
           [(lit "data", JArr Cases.null_url_documents)] Cases.null_url_fields
           [Sample.doc "A/B" "https://x/a.pdf"]
           (List.map doc_json [Sample.doc "D" "https://x/d.pdf"]));
    reflexivity.
Defined.

(** ** Files that cannot be written or opened *)

(** X26: take a URL with no lone surrogate and a site name short enough
    for the index to be opened.  A record with a lone surrogate in its
    name or in its publicUrl, after records that have none, stops the
    run inside the first loop with an uncaught [UnicodeEncodeError]: the
    row cannot be encoded as UTF-8.  The index is left behind with the
    header and the rows of the records before; the script is never
    opened. *)
Theorem lone_surrogate_leaves_partial_index
        (E : Env) (url site_name json_api_url : str) (r : Response)
        (fields : list (str * jvalue)) (pre : list DocumentRecord)
        (bad : DocumentRecord) (rest : list jvalue) :
  resolve_site E url = inr (site_name, json_api_url) ->
  session_get E json_api_url = inr r ->
  raise_for_status r = None ->
  json r = inr (JObj fields) ->
  lookup (lit "data") fields =
    Some (JArr (List.map doc_json pre ++ doc_json bad :: rest)) ->
  record_encodable bad = false ->
  forallb record_encodable pre = true ->
  encodable url = true ->
  open_w (site_name ++ lit "_documents.csv") = None ->
  scrape_powerdms_site E url =
  {| status := Uncaught UnicodeEncodeError;
     files :=
       [(site_name ++ lit "_documents.csv",
         CsvRows ([JStr (lit "name"); JStr (lit "url")] ::
                  List.map (fun d => [JStr (name_of d); JStr (url_of d)]) pre))] |}.
Proof.
  intros Hres Hget Hok Hjson Hdata Hbad Hpre _ Hopen.
  rewrite (scrape_after_fetch _ _ _ _ _ _ Hres Hget Hok Hjson).
  unfold write_artifacts. rewrite Hdata.
  assert (Hne : is_empty (List.map doc_json pre ++ doc_json bad :: rest) = false)
    by now destruct pre.
  rewrite Hne. fold (csv_filename site_name) in Hopen. rewrite Hopen.
  rewrite (csv_rows_app _ _ Hpre).
  assert (Hrows : csv_rows (doc_json bad :: rest) = ([], Some UnicodeEncodeError)).
  { cbn [csv_rows]. now rewrite csv_row_doc, Hbad. }
  rewrite Hrows. cbn [fst snd]. now rewrite app_nil_r.
Qed.

Lemma lone_surrogate_leaves_partial_index_witness :
  resolve_site Cases.surrogate_world Sample.url =
    inr (Sample.site_name, Sample.json_api_url) /\
  record_encodable Cases.surrogate_record = false /\
  forallb record_encodable [Sample.doc "A/B" "https://x/a.pdf"] = true /\
  encodable Sample.url = true /\
  open_w (Sample.site_name ++ lit "_documents.csv") = None /\
  scrape_powerdms_site Cases.surrogate_world Sample.url =
  {| status := Uncaught UnicodeEncodeError;
     files :=
       [(lit "MassStatePolice_documents.csv",
         CsvRows [[JStr (lit "name"); JStr (lit "url")];
                  [JStr (lit "A/B"); JStr (lit "https://x/a.pdf")]])] |}.
Proof.
  do 5 (split; [reflexivity|]).
  apply (lone_surrogate_leaves_partial_index Cases.surrogate_world Sample.url
           Sample.site_name Sample.json_api_url Cases.surrogate_response
           [(lit "data", JArr Cases.surrogate_documents)]
           [Sample.doc "A/B" "https://x/a.pdf"] Cases.surrogate_record
           (List.map doc_json [Sample.doc "D" "https://x/d.pdf"])); reflexivity.
Defined.

Lemma encodable_no_bad_surrogate (t : str) :
  encodable t = true ->
  existsb (fun c => is_surrogate c && negb (is_escaped_byte c)) t = false.
Proof.
  unfold encodable. induction t as [|c t IH]; [reflexivity|].
  cbn [forallb existsb]. rewrite andb_true_iff. intros [Hc Ht].
  rewrite (IH Ht). now destruct (is_surrogate c).
Qed.

Lemma no_null_char (t : str) : ~ In 0 t -> existsb (N.eqb 0) t = false.
Proof.
  intros H. destruct (existsb (N.eqb 0) t) eqn:He; [|reflexivity].
  apply existsb_exists in He. destruct He as (c & Hin & Hc).
  apply N.eqb_eq in Hc. subst c. contradiction.
Qed.

(** X27: a site name of more than 241 bytes makes the name of the index
    longer than [NAME_MAX].  Once a non-empty list of documents is
    fetched, the run stops at the first [open] with an uncaught
    [OSError] and leaves no file. *)
Theorem long_site_name_opens_nothing
        (E : Env) (url site_name json_api_url : str) (r : Response)
        (fields : list (str * jvalue)) (doc : jvalue) (rest : list jvalue) :
  resolve_site E url = inr (site_name, json_api_url) ->
  session_get E json_api_url = inr r ->
  raise_for_status r = None ->
  json r = inr (JObj fields) ->
  lookup (lit "data") fields = Some (JArr (doc :: rest)) ->
  encodable url = true ->
  encodable site_name = true ->
  ~ In 0 site_name ->
  241 < fs_length site_name ->
  scrape_powerdms_site E url = {| status := Uncaught OSError; files := [] |}.
Proof.
  intros Hres Hget Hok Hjson Hdata _ Hsite Hnull Hlong.
  rewrite (scrape_after_fetch _ _ _ _ _ _ Hres Hget Hok Hjson).
  unfold write_artifacts. rewrite Hdata. cbn [is_empty].
  assert (Hopen : open_w (csv_filename site_name) = Some OSError).
  { unfold open_w, csv_filename. rewrite !existsb_app, fs_length_app.
    rewrite (encodable_no_bad_surrogate _ Hsite). cbn [orb].
    destruct (existsb _ site_name) eqn:Hz.
    { exfalso. pose proof (no_null_char _ Hnull) as Hn.
      assert (Hc : true = false) by (rewrite <- Hz; exact Hn).
      discriminate Hc. }
    cbn [orb]. change (fs_length (lit "_documents.csv")) with 14.
    assert (Hlt : (NAME_MAX <? fs_length site_name + 14) = true)
      by (apply N.ltb_lt; unfold NAME_MAX; lia).
    now rewrite Hlt. }
  now rewrite Hopen.
Qed.

Lemma long_site_name_opens_nothing_witness :
  resolve_site Cases.long_world Cases.long_url =
    inr (Cases.long_site, Cases.long_api_url) /\
  session_get Cases.long_world Cases.long_api_url = inr Cases.long_response /\
  encodable Cases.long_url = true /\
  encodable Cases.long_site = true /\
  ~ In 0 Cases.long_site /\
  241 < fs_length Cases.long_site /\
  scrape_powerdms_site Cases.long_world Cases.long_url =
  {| status := Uncaught OSError; files := [] |}.
Proof.
  assert (Hnull : ~ In 0 Cases.long_site).
  { intros H. apply repeat_spec in H. discriminate H. }
  assert (Hlong : 241 < fs_length Cases.long_site) by reflexivity.
  split; [reflexivity | split; [reflexivity | split; [reflexivity |
    split; [reflexivity | split; [exact Hnull | split; [exact Hlong|]]]]]].
  apply (long_site_name_opens_nothing Cases.long_world Cases.long_url
           Cases.long_site Cases.long_api_url Cases.long_response
           [(lit "data", JArr (List.map doc_json Sample.catalog))]
           (doc_json (Sample.doc "A/B" "https://x/a.pdf"))
           [doc_json {| name := Some (lit "C"); publicUrl := None |}]);
    try reflexivity; assumption.
Defined.

(** ** Where the run and the script write *)

Lemma script_entry_wget (E : Env) (dir : str) (doc : jvalue)
      (items : list script_item) (out u : str) :
  script_entry E dir doc = inr items ->
  In (Wget out u) items ->
  exists n, out = path_join dir (safe_filename n ++ lit ".pdf").
Proof.
  unfold script_entry, bind.
  destruct (doc_get doc (lit "name") sentinel_name) as [e|nm]; [discriminate|].
  destruct (doc_get doc (lit "publicUrl") sentinel_url) as [e|pu]; [discriminate|].
  destruct (no_url_found_in pu) as [e|[|]]; [discriminate | |].
  - intros H. injection H as <-. intros [Hin|[]]. discriminate Hin.
  - destruct nm; simpl; try discriminate.
    intros H. injection H as <-. intros [Hin|[Hin|[]]]; [discriminate Hin|].
    injection Hin as <- _. now exists s.
Qed.

Lemma script_items_wget (E : Env) (dir : str) (documents : list jvalue)
      (out u : str) :
  In (Wget out u) (fst (script_items E dir documents)) ->
  exists n, out = path_join dir (safe_filename n ++ lit ".pdf").
Proof.
  induction documents as [|doc rest IH]; simpl; [intros []|].
  destruct (script_entry E dir doc) as [e|entry] eqn:Hentry; [intros []|].
  destruct (script_items E dir rest) as [items err]. simpl in *.
  intros Hin. apply in_app_or in Hin. destruct Hin as [Hin|Hin].
  - exact (script_entry_wget _ _ _ _ _ _ Hentry Hin).
  - exact (IH Hin).
Qed.

Lemma safe_filename_no_slash (n : str) : ~ In c_slash (safe_filename n).
Proof.
  intros Hin.
  destruct (proj1 (Forall_forall _ _) (safe_filename_clean n) _ Hin) as [Hr _].
  discriminate Hr.
Qed.

(** X21: whatever the documents are, the [-O] argument of every wget
    line, as the script spells it, is the download directory, one slash,
    and a file name that holds no slash character and ends with [.pdf].
    This is the text between the double quotes; what [/bin/sh] makes of a
    dollar sign or a backquote in it when the script runs is not part of
    the statement. *)
Theorem wget_output_argument_shape
        (E : Env) (url site_name json_api_url : str)
        (documents : list jvalue) (out u : str) :
  resolve_site E url = inr (site_name, json_api_url) ->
  In (Wget out u) (fst (script_items E (download_dir site_name) documents)) ->
  exists f,
    out = lit "downloaded_" ++ site_name ++ lit "/" ++ f /\
    ~ In c_slash f /\
    endswith f (lit ".pdf") = true.
Proof.
  intros Hres Hin. apply resolved_site_name in Hres. destruct Hres as [Hs _].
  destruct (script_items_wget _ _ _ _ _ Hin) as (n & ->).
  exists (safe_filename n ++ lit ".pdf"). split; [|split].
  - rewrite (output_path _ _ Hs). unfold download_dir. now rewrite <- app_assoc.
  - intros H. apply in_app_or in H. destruct H as [H|H].
    + exact (safe_filename_no_slash n H).
    + revert H. vm_compute. intuition discriminate.
  - apply endswith_app.
Qed.

Lemma wget_output_argument_shape_witness :
  resolve_site Sample.world Sample.url =
    inr (Sample.site_name, Sample.json_api_url) /\
  In (Wget (lit "downloaded_MassStatePolice/A_B.pdf") (lit "https://x/a.pdf"))
     (fst (script_items Sample.world (download_dir Sample.site_name)
             (List.map doc_json Sample.catalog))) /\
  exists f,
    lit "downloaded_MassStatePolice/A_B.pdf" =
    lit "downloaded_" ++ Sample.site_name ++ lit "/" ++ f /\
    ~ In c_slash f /\
    endswith f (lit ".pdf") = true.
Proof.
  assert (Hin : In (Wget (lit "downloaded_MassStatePolice/A_B.pdf")
                         (lit "https://x/a.pdf"))
                   (fst (script_items Sample.world (download_dir Sample.site_name)
                           (List.map doc_json Sample.catalog))))
    by (right; left; reflexivity).
  split; [reflexivity | split; [exact Hin|]].
  apply (wget_output_argument_shape Sample.world Sample.url
           Sample.site_name Sample.json_api_url
           (List.map doc_json Sample.catalog) _ (lit "https://x/a.pdf") eq_refl Hin).
Defined.

Lemma fetch_handler_files (json_api_url : str) (response : option Response)
      (e : lib_exn) :
  files (fetch_handler json_api_url response e) = [] \/
  exists c, files (fetch_handler json_api_url response e) =
            [(lit "error_response.html", c)].
Proof.
  unfold fetch_handler.
  destruct (isinstance_HTTPError e);
    [destruct (response_status_code e); now left|].
  destruct (isinstance_RequestException e); [now left|].
  destruct (isinstance_JSONDecodeError e); [|now left].
  destruct response as [r|]; [|right; eexists; reflexivity].
  destruct (write_all [text r]) as [written [x|]]; right; eexists; reflexivity.
Qed.

Lemma fetch_files (E : Env) (json_api_url : str) (o : outcome) :
  fetch E json_api_url = inl o ->
  files o = [] \/ exists c, files o = [(lit "error_response.html", c)].
Proof.
  unfold fetch. destruct (session_get E json_api_url) as [e|r].
  - intros H. injection H as <-. apply fetch_handler_files.
  - destruct (raise_for_status r) as [e|].
    + intros H. injection H as <-. apply fetch_handler_files.
    + destruct (json r) as [e|data]; [|discriminate].
      intros H. injection H as <-. apply fetch_handler_files.
Qed.

Lemma write_artifacts_files (E : Env) (site_name : str) (data : jvalue) :
  files (write_artifacts E site_name data) = [] \/
  (exists c, files (write_artifacts E site_name data) = [(lit "debug.json", c)]) \/
  (exists c, files (write_artifacts E site_name data) =
             [(csv_filename site_name, c)]) \/
  (exists c c', files (write_artifacts E site_name data) =
                [(csv_filename site_name, c); (script_filename site_name, c')]).
Proof.
  unfold write_artifacts. destruct data; try (now left).
  destruct (lookup (lit "data") fields) as [[| | | |documents|]|];
    try (right; left; eexists; reflexivity).
  destruct (is_empty documents); [now left|].
  destruct (open_w (csv_filename site_name)); [now left|].
  destruct (csv_rows documents) as [rows [e|]].
  - right; right; left. eexists. reflexivity.
  - destruct (open_w (script_filename site_name)).
    + right; right; left. eexists. reflexivity.
    + destruct (script_items E (download_dir site_name) documents) as [items err].
      destruct (write_all _) as [written werr].
      right; right; right. do 2 eexists. reflexivity.
Qed.

Lemma lit_no_slash (site_name a b : str) :
  ~ In c_slash site_name ->
  forallb (fun c => negb (c =? c_slash)) (a ++ b) = true ->
  ~ In c_slash (a ++ site_name ++ b).
Proof.
  intros Hs Hab Hin. rewrite forallb_forall in Hab.
  apply in_app_or in Hin. destruct Hin as [Hin|Hin].
  - specialize (Hab c_slash (in_or_app _ _ _ (or_introl Hin))). discriminate Hab.
  - apply in_app_or in Hin. destruct Hin as [Hin|Hin]; [exact (Hs Hin)|].
    specialize (Hab c_slash (in_or_app _ _ _ (or_intror Hin))). discriminate Hab.
Qed.

(** X22: whatever the world and the URL, a run writes at most two files,
    and the name of no file it writes holds a slash: everything lands in
    the working directory. *)
Theorem run_writes_in_working_directory (E : Env) (url : str) :
  (length (files (scrape_powerdms_site E url)) <= 2)%nat /\
  Forall (fun f => ~ In c_slash (fst f)) (files (scrape_powerdms_site E url)).
Proof.
  unfold scrape_powerdms_site.
  destruct (resolve_site E url) as [x|[site_name json_api_url]] eqn:Hres;
    [split; [simpl; lia | constructor]|].
  apply resolved_site_name in Hres. destruct Hres as [Hs _].
  assert (Hcsv : ~ In c_slash (csv_filename site_name)).
  { unfold csv_filename.
    apply (lit_no_slash site_name [] (lit "_documents.csv") Hs). reflexivity. }
  assert (Hsh : ~ In c_slash (script_filename site_name)).
  { unfold script_filename.
    apply (lit_no_slash site_name (lit "download_") (lit ".sh") Hs). reflexivity. }
  assert (Herr : ~ In c_slash (lit "error_response.html"))
    by (vm_compute; intuition discriminate).
  assert (Hdbg : ~ In c_slash (lit "debug.json"))
    by (vm_compute; intuition discriminate).
  destruct (fetch E json_api_url) as [o|data] eqn:Hfetch.
  - destruct (fetch_files _ _ _ Hfetch) as [-> | (c & ->)].
    + split; [simpl; lia | constructor].
    + split; [simpl; lia | repeat constructor; exact Herr].
  - destruct (write_artifacts_files E site_name data)
      as [-> | [(c & ->) | [(c & ->) | (c & c' & ->)]]];
      (split; [simpl; lia | repeat constructor; assumption]).
Qed.

(** ** Exits and files *)

Lemma fetch_handler_silent (json_api_url : str) (response : option Response)
      (e : lib_exn) :
  silent_exit (status (fetch_handler json_api_url response e)) = true ->
  files (fetch_handler json_api_url response e) = [].
Proof.
  unfold fetch_handler.
  destruct (isinstance_HTTPError e);
    [destruct (response_status_code e); reflexivity|].
  destruct (isinstance_RequestException e); [reflexivity|].
  destruct (isinstance_JSONDecodeError e); [|reflexivity].
  destruct response as [r|]; [|discriminate].
  destruct (write_all [text r]) as [written [x|]]; discriminate.
Qed.

Lemma write_artifacts_silent (E : Env) (site_name : str) (data : jvalue) :
  silent_exit (status (write_artifacts E site_name data)) = true ->
  files (write_artifacts E site_name data) = [].
Proof.
  unfold write_artifacts. destruct data; try reflexivity.
  destruct (lookup (lit "data") fields) as [[| | | |documents|]|];
    try discriminate.
  destruct (is_empty documents); [reflexivity|].
  destruct (open_w (csv_filename site_name)); [discriminate|].
  destruct (csv_rows documents) as [rows [e|]]; [discriminate|].
  destruct (open_w (script_filename site_name)); [discriminate|].
  destruct (script_items E (download_dir site_name) documents) as [items [e|]];
    destruct (write_all _) as [written [x|]]; discriminate.
Qed.

(** X23: a run that ends at the invalid-URL, URL-parse, HTTP-error,
    request-error or no-documents message has written no file, whatever
    the world and the URL. *)
Theorem silent_exit_writes_nothing (E : Env) (url : str) :
  silent_exit (status (scrape_powerdms_site E url)) = true ->
  files (scrape_powerdms_site E url) = [].
Proof.
  unfold scrape_powerdms_site.
  destruct (resolve_site E url) as [x|[site_name json_api_url]]; [reflexivity|].
  unfold fetch. destruct (session_get E json_api_url) as [e|r];
    [apply fetch_handler_silent|].
  destruct (raise_for_status r) as [e|]; [apply fetch_handler_silent|].
  destruct (json r) as [e|data]; [apply fetch_handler_silent|].
  apply write_artifacts_silent.
Qed.

Lemma silent_exit_writes_nothing_witness :
  silent_exit (status (scrape_powerdms_site Cases.not_found_world Sample.url)) = true /\
  files (scrape_powerdms_site Cases.not_found_world Sample.url) = [].
Proof.
  split; [reflexivity|].
  apply (silent_exit_writes_nothing Cases.not_found_world Sample.url).
  reflexivity.
Defined.

Lemma fetch_handler_not_done (json_api_url : str) (response : option Response)
      (e : lib_exn) :
  status (fetch_handler json_api_url response e) <> AllDone.
Proof.
  unfold fetch_handler.
  destruct (isinstance_HTTPError e);
    [destruct (response_status_code e); discriminate|].
  destruct (isinstance_RequestException e); [discriminate|].
  destruct (isinstance_JSONDecodeError e); [|discriminate].
  destruct response as [r|]; [|discriminate].
  destruct (write_all [text r]) as [written [x|]]; discriminate.
Qed.

Lemma resolve_site_not_done (E : Env) (url : str) :
  resolve_site E url <> inl AllDone.
Proof.
  unfold resolve_site. destruct (urlparse E url); [discriminate|].
  destruct (_ || _); [discriminate|].
  destruct (nth_error _ _); discriminate.
Qed.

Lemma write_all_complete (chunks : list str) (written : str) :
  write_all chunks = (written, None) -> written = concat chunks.
Proof.
  revert written. induction chunks as [|c chunks IH]; intros written; simpl.
  - intros H. now injection H as <-.
  - destruct (encodable c); [|discriminate].
    destruct (write_all chunks) as [w err]. intros H. injection H as <- ->.
    now rewrite (IH w eq_refl).
Qed.

(** X24: ALL DONE is printed only after both loops ran to their end.  A
    run that ends there got a response that passed the status check and
    decoded to an object whose [data] is a non-empty list; on that list
    neither loop raised, and the run left exactly the index and the
    script: the index has the header and one row for every document of
    the list, and the script is the header followed by the writes of the
    second loop on the list. *)
Theorem all_done_means_both_files (E : Env) (url : str) :
  status (scrape_powerdms_site E url) = AllDone ->
  exists site_name json_api_url r fields documents,
    resolve_site E url = inr (site_name, json_api_url) /\
    session_get E json_api_url = inr r /\
    raise_for_status r = None /\
    json r = inr (JObj fields) /\
    lookup (lit "data") fields = Some (JArr documents) /\
    documents <> [] /\
    snd (csv_rows documents) = None /\
    snd (script_items E (download_dir site_name) documents) = None /\
    length (fst (csv_rows documents)) = length documents /\
    files (scrape_powerdms_site E url) =
    [(csv_filename site_name, CsvRows (csv_header :: fst (csv_rows documents)));
     (script_filename site_name,
      Text (script_text (download_dir site_name)
              (fst (script_items E (download_dir site_name) documents))))].
Proof.
  unfold scrape_powerdms_site.
  destruct (resolve_site E url) as [x|[site_name json_api_url]] eqn:Hres.
  { simpl. intros ->. now destruct (resolve_site_not_done E url). }
  unfold fetch.
  destruct (session_get E json_api_url) as [e|r] eqn:Hget;
    [intros H; now destruct (fetch_handler_not_done _ _ _ H)|].
  destruct (raise_for_status r) as [e|] eqn:Hok;
    [intros H; now destruct (fetch_handler_not_done _ _ _ H)|].
  destruct (json r) as [e|data] eqn:Hjson;
    [intros H; now destruct (fetch_handler_not_done _ _ _ H)|].
  unfold write_artifacts. destruct data; try discriminate.
  destruct (lookup (lit "data") fields) as [[| | | |documents|]|] eqn:Hdata;
    try discriminate.
  destruct documents as [|doc rest]; [discriminate|].
  cbn [is_empty].
  destruct (open_w (csv_filename site_name)); [discriminate|].
  destruct (csv_rows (doc :: rest)) as [rows [e|]] eqn:Hcsv; [discriminate|].
  destruct (open_w (script_filename site_name)); [discriminate|].
  destruct (script_items E (download_dir site_name) (doc :: rest))
    as [items [e|]] eqn:Hsh;
    destruct (write_all _) as [written [x|]] eqn:Hw; try discriminate.
  intros _. exists site_name, json_api_url, r, fields, (doc :: rest).
  pose proof (csv_rows_complete (doc :: rest)) as Hlen.
  apply write_all_complete in Hw.
  rewrite concat_app, script_header_writes_concat in Hw.
  rewrite Hcsv, Hsh in *. cbn [fst snd files] in *. subst written.
  repeat split; try reflexivity; try assumption;
    [discriminate | now apply Hlen].
Qed.

Lemma all_done_means_both_files_witness :
  status (scrape_powerdms_site Sample.world Sample.url) = AllDone /\
  exists site_name json_api_url r fields documents,
    resolve_site Sample.world Sample.url = inr (site_name, json_api_url) /\
    session_get Sample.world json_api_url = inr r /\
    raise_for_status r = None /\
    json r = inr (JObj fields) /\
    lookup (lit "data") fields = Some (JArr documents) /\
    documents <> [] /\
    snd (csv_rows documents) = None /\
    snd (script_items Sample.world (download_dir site_name) documents) = None /\
    length (fst (csv_rows documents)) = length documents /\
    files (scrape_powerdms_site Sample.world Sample.url) =
    [(csv_filename site_name, CsvRows (csv_header :: fst (csv_rows documents)));
     (script_filename site_name,
      Text (script_text (download_dir site_name)
              (fst (script_items Sample.world (download_dir site_name) documents))))].
Proof.
  split; [reflexivity|].
  apply (all_done_means_both_files Sample.world Sample.url). reflexivity.
Defined.

(** ** The skip rule *)

Lemma startswith_spec (t p : str) :
  startswith t p = true <-> exists r, t = p ++ r.
Proof.
  revert t. induction p as [|y p IH]; intros t; simpl.
  - split; [now exists t | reflexivity].
  - destruct t as [|x t]; [split; [discriminate | intros (r & H); discriminate H]|].
    rewrite andb_true_iff, N.eqb_eq, IH. split.
    + intros (-> & r & ->). now exists r.
    + intros (r & H). injection H as -> ->. split; [reflexivity | now exists r].
Qed.

Lemma contains_spec (sub t : str) :
  contains sub t = true <-> exists a b, t = a ++ sub ++ b.
Proof.
  induction t as [|x t IH].
  - cbn [contains]. rewrite orb_false_r, startswith_spec. split.
    + intros (r & H). now exists [], r.
    + intros (a & b & H). destruct a; [now exists b|discriminate H].
  - cbn [contains]. rewrite orb_true_iff, startswith_spec, IH. split.
    + intros [(r & H) | (a & b & H)]; [now exists [], r|].
      exists (x :: a), b. simpl. now rewrite H.
    + intros (a & b & H). destruct a as [|y a].
      * left. now exists b.
      * right. injection H as _ H. now exists a, b.
Qed.

(** X25: a record gets the skip comment, and no download, exactly when
    the sentinel text occurs somewhere in its publicUrl (an absent
    publicUrl counting as the sentinel itself). *)
Theorem skipped_iff_sentinel_occurs (E : Env) (dir : str) (d : DocumentRecord) :
  script_entry E dir (doc_json d) = inr [SkipComment (name_of d)] <->
  exists a b, url_of d = a ++ lit "no-url-found" ++ b.
Proof.
  rewrite script_entry_doc, <- (contains_spec (lit "no-url-found")).
  unfold entry_of. change (lit "no-url-found") with sentinel_url.
  destruct (contains sentinel_url (url_of d)).
  - split; reflexivity.
  - split; discriminate.
Qed.
